(** * luigi_pipeline.py: a shallow embedding and its properties

    The pipeline of [luigi_pipeline.py] is a chain of five luigi tasks:
    [DownloadDatasetTask], [ExtractDatasetTask], [ProcessDatasetTask],
    [TrimDatasetColumnsTask] and [CleanupTask].  This development embeds

    - the string and path computations of the tasks (Python's [str.replace],
      [str.endswith], [os.path.join], [os.path.basename]),
    - the parameters, [requires] and [output] of every task,
    - the [run] bodies over an explicit file system state, with the
      exceptions of the Python calls as an error result,
    - the column projection of [_trim_columns] over a column-major table,

    and states the properties of the pipeline over them. *)

From stdpp Require Import gmap strings list fin_maps.
From Stdlib Require Import Ascii.

(** ** Python strings *)

Module PyStr.

(** [s.startswith(p)] *)
Fixpoint startswith (s p : string) : bool :=
  match p with
  | "" => true
  | String b p' =>
      match s with
      | "" => false
      | String a s' => if Ascii.eqb a b then startswith s' p' else false
      end
  end.

(** [s.endswith(suf)]: some suffix of [s] is [suf]. *)
Fixpoint endswith (s suf : string) : bool :=
  if String.eqb s suf then true
  else match s with
       | "" => false
       | String _ s' => endswith s' suf
       end.

(** [c in s] for a character [c] *)
Fixpoint contains_char (c : ascii) (s : string) : bool :=
  match s with
  | "" => false
  | String a s' => Ascii.eqb a c || contains_char c s'
  end.

(** [old in s]: [old] occurs in [s] at some position. *)
Fixpoint occurs (old s : string) : bool :=
  startswith s old ||
  match s with
  | "" => false
  | String _ s' => occurs old s'
  end.

(** The scan of [str.replace] for a non-empty [old]: left to right, every
    occurrence that does not overlap an earlier one is replaced.  [skip]
    counts the characters of the occurrence just replaced that are still
    to be passed over. *)
Fixpoint replace_from (old new : string) (skip : nat) (s : string) : string :=
  match s with
  | "" => ""
  | String a s' =>
      match skip with
      | S k => replace_from old new k s'
      | O =>
          if startswith s old
          then new +:+ replace_from old new (String.length old - 1) s'
          else String a (replace_from old new 0 s')
      end
  end.

(** [str.replace] with an empty [old] puts [new] before every character
    and at the end. *)
Fixpoint intersperse (new s : string) : string :=
  match s with
  | "" => new
  | String a s' => new +:+ String a (intersperse new s')
  end.

(** [s.replace(old, new)] *)
Definition replace (s old new : string) : string :=
  match old with
  | "" => intersperse new s
  | _ => replace_from old new 0 s
  end.

(** [s.split(sep)] for a one-character separator *)
Fixpoint split (sep : ascii) (s : string) : list string :=
  match s with
  | "" => [""]
  | String a s' =>
      if Ascii.eqb a sep then "" :: split sep s'
      else match split sep s' with
           | h :: t => String a h :: t
           | [] => [String a ""]
           end
  end.

End PyStr.

(** ** [os.path] (posixpath) *)

Module OsPath.

Definition sep : ascii := "/"%char.

(** [os.path.join(a, b)] *)
Definition join (a b : string) : string :=
  if PyStr.startswith b "/" then b
  else if String.eqb a "" || PyStr.endswith a "/" then a +:+ b
  else a +:+ "/" +:+ b.

(** [os.path.basename(p)]: what follows the last slash. *)
Fixpoint basename (p : string) : string :=
  match p with
  | "" => ""
  | String a p' =>
      if Ascii.eqb a sep || PyStr.contains_char sep p' then basename p'
      else p
  end.

End OsPath.

(** ** Names and paths computed by the tasks *)

(** [DownloadDatasetTask.run]: the f-string of [url]. *)
Definition download_url (dataset_name : string) : string :=
  "ftp://ftp.ncbi.nlm.nih.gov/geo/series/GSE68nnn/" +:+ dataset_name
    +:+ "/suppl/" +:+ dataset_name +:+ "_RAW.tar".

(** [ProcessDatasetTask._decompress_file]: [output_file_path]. *)
Definition decompress_output_file_path (processed_dir file_path : string) : string :=
  OsPath.join processed_dir
    (PyStr.replace (OsPath.basename file_path) ".gz" "_processed.txt").

(** [TrimDatasetColumnsTask._trim_columns]: [output_file_path]. *)
Definition trim_output_file_path (trimmed_dir file_path : string) : string :=
  OsPath.join trimmed_dir
    (PyStr.replace (OsPath.basename file_path) "_processed.txt" "_trimmed.txt").

(** ** Tables: [pandas.DataFrame]

    A data frame is stored by column, as pandas stores it: a row index (a
    [RangeIndex] after [read_csv], so its length) and the labelled columns in
    order. *)

Record DataFrame := {
  index : nat;
  columns : list (string * list string)
}.

(** [df.drop(columns=labels, errors='ignore')]: every column whose label is
    listed goes; a listed label that names no column is ignored. *)
Definition drop (df : DataFrame) (labels : list string) : DataFrame :=
  {| index := index df;
     columns := filter (λ c, c.1 ∉ labels) (columns df) |}.


(** [TrimDatasetColumnsTask.run]: [columns_to_remove]. *)
Definition columns_to_remove : list string :=
  ["Definition"; "Ontology_Component"; "Ontology_Process"; "Ontology_Function"].

(** ** The file system

    The state the tasks act on is a finite map from normalised paths (the
    list of the components of a path) to nodes.  The working directory is the
    root of the map, [[]], which is always a directory.  Symbolic links and
    [..] components are not modelled. *)

Inductive node :=
| File (content : string)
| Dir.

Abbreviation FS := (gmap (list string) node).

(** The exceptions of the Python calls the tasks make. *)
Inductive Error :=
| FileNotFoundError
| FileExistsError
| NotADirectoryError
| IsADirectoryError
| OSError
| URLError
| ReadError
| BadGzipFile
| ParserError.

Inductive Outcome (A : Type) :=
| Ok (a : A)
| Raise (e : Error).
Arguments Ok {A} a.
Arguments Raise {A} e.

(** A statement of a [run] body: it ends normally or raises, and leaves a
    file system either way. *)
Definition M (A : Type) : Type := FS → Outcome A * FS.

Definition ret {A} (a : A) : M A := λ fs, (Ok a, fs).
Definition raise {A} (e : Error) : M A := λ fs, (Raise e, fs).
Definition bind {A B} (m : M A) (f : A → M B) : M B :=
  λ fs, match m fs with
        | (Ok a, fs') => f a fs'
        | (Raise e, fs') => (Raise e, fs')
        end.

Notation "'do' x <- m 'then' k" := (bind m (λ x, k))
  (at level 10, x name, m at level 100, k at level 200).

(** [for x in l: body(x)] *)
Fixpoint for_each {A} (l : list A) (body : A → M unit) : M unit :=
  match l with
  | [] => ret tt
  | x :: l' => do _ <- body x then for_each l' body
  end.

(** The value of an external call, or its exception. *)
Definition lift {A} (o : option A) (e : Error) : M A :=
  match o with
  | Some a => ret a
  | None => raise e
  end.

Module Os.

(** The components of a path: empty components (doubled or trailing
    slashes) and [.] name nothing. *)
Definition components (p : string) : list string :=
  filter (λ c, c ≠ "" ∧ c ≠ ".") (PyStr.split OsPath.sep p).

Definition look (fs : FS) (k : list string) : option node :=
  match k with
  | [] => Some Dir
  | _ => fs !! k
  end.

(** [os.path.exists(p)] *)
Definition path_exists (fs : FS) (p : string) : bool :=
  if decide (p = "") then false
  else bool_decide (is_Some (look fs (components p))).

(** The [mkdir] calls of [os.makedirs(p, exist_ok=True)], from the
    outermost directory inwards: [above] is the part of the path already
    passed, [todo] what follows.  An existing directory is passed over, a
    missing one is made, and a regular file in the way is an error. *)
Fixpoint mkdirs_from (above todo : list string) (fs : FS) : Outcome unit * FS :=
  match todo with
  | [] => (Ok tt, fs)
  | c :: rest =>
      let q := above ++ [c] in
      match fs !! q with
      | Some Dir => mkdirs_from q rest fs
      | Some (File _) =>
          (Raise (match rest with
                  | [] => FileExistsError
                  | _ => NotADirectoryError
                  end), fs)
      | None => mkdirs_from q rest (<[q := Dir]> fs)
      end
  end.

(** [os.makedirs(p, exist_ok=True)] *)
Definition makedirs (p : string) : M unit :=
  λ fs, if decide (p = "") then (Raise FileNotFoundError, fs)
        else mkdirs_from [] (components p) fs.

(** [open(p, 'w')], [write(content)] and the close. *)
Definition write_file (p content : string) : M unit :=
  λ fs,
    let k := components p in
    if decide (p = "") then (Raise FileNotFoundError, fs)
    else match look fs k with
         | Some Dir => (Raise IsADirectoryError, fs)
         | _ =>
             match look fs (removelast k) with
             | Some Dir => (Ok tt, <[k := File content]> fs)
             | Some (File _) => (Raise NotADirectoryError, fs)
             | None => (Raise FileNotFoundError, fs)
             end
         end.

(** [open(p).read()] *)
Definition read_file (p : string) : M string :=
  λ fs,
    if decide (p = "") then (Raise FileNotFoundError, fs)
    else match look fs (components p) with
         | Some (File c) => (Ok c, fs)
         | Some Dir => (Raise IsADirectoryError, fs)
         | None => (Raise FileNotFoundError, fs)
         end.

(** The file system without the node at [k] and all that is under it. *)
Definition remove_tree (k : list string) (fs : FS) : FS :=
  filter (λ kv, ¬ k `prefix_of` kv.1) fs.

(** [shutil.rmtree(p)]: the directory and all that is under it go; the
    root itself cannot be removed once it is empty. *)
Definition rmtree (p : string) : M unit :=
  λ fs,
    let k := components p in
    if decide (p = "") then (Raise FileNotFoundError, fs)
    else match look fs k with
         | None => (Raise FileNotFoundError, fs)
         | Some (File _) => (Raise NotADirectoryError, fs)
         | Some Dir =>
             match k with
             | [] => (Raise OSError, remove_tree k fs)
             | _ => (Ok tt, remove_tree k fs)
             end
         end.

(** [q] relative to the directory [k], when it is under it. *)
Fixpoint relative_to (k q : list string) : option (list string) :=
  match k, q with
  | [], _ => Some q
  | a :: k', b :: q' => if decide (a = b) then relative_to k' q' else None
  | _ :: _, [] => None
  end.

(** The pairs [(root, file)] that the loops
    [for root, _, files in os.walk(top): for file in files] go through:
    every regular file under [top], with the path of its directory as
    [os.walk] builds it, by joining [top] with the directory names.  A [top]
    that is no directory yields nothing.  The listing is the one at the
    start of the loop, in the order of the map (Python's is the order of
    the operating system's directory listing). *)
Definition walk_files (top : string) (fs : FS) : list (string * string) :=
  if decide (top = "") then []
  else match look fs (components top) with
       | Some Dir =>
           omap (λ kv,
                   match kv.2 with
                   | Dir => None
                   | File _ =>
                       rest ← relative_to (components top) kv.1;
                       file ← last rest;
                       Some (fold_left OsPath.join (removelast rest) top, file)
                   end)
                (map_to_list fs)
       | _ => []
       end.

End Os.

(** Nothing that exists in [fs] is missing in [fs']. *)
Definition grows (fs fs' : FS) : Prop :=
  ∀ k, is_Some (fs !! k) → is_Some (fs' !! k).

(** A statement that removes nothing, whether it ends normally or raises. *)
Definition monotone {A} (m : M A) : Prop :=
  ∀ fs r fs', m fs = (r, fs') → grows fs fs'.

(** A statement that changes the file system at paths of [Q] only, whether
    it ends normally or raises. *)
Definition touches_only {A} (Q : list string → Prop) (m : M A) : Prop :=
  ∀ fs r fs' k, m fs = (r, fs') → ¬ Q k → fs' !! k = fs !! k.



(** ** The external collaborators of the stage bodies

    What the remote server holds, what an archive or a compressed file
    contains and how pandas reads and prints a table are not decided by the
    pipeline: the [run] bodies take them from an environment.  [None] is
    the exception of the call. *)

Record Env := {
  (** [wget.download(url, ...)]: the content behind [url] *)
  fetch : string → option string;
  (** [tarfile.open(...)]: the members of an archive, by name *)
  untar : string → option (list (string * node));
  (** [gzip.open(..., 'rt').read()]: the text of a compressed file *)
  gunzip : string → option string;
  (** [pd.read_csv(..., sep='\t')] *)
  read_csv : string → option DataFrame;
  (** [df.to_csv(..., sep='\t', index=False)] *)
  to_csv : DataFrame → string
}.

(** ** The tasks

    A task is its class and the values of its parameters; this is the
    identity luigi gives it. *)

Inductive Task :=
| DownloadDatasetTask (dataset_name download_dir : string)
| ExtractDatasetTask (dataset_name download_dir extract_dir : string)
| ProcessDatasetTask (dataset_name extract_dir processed_dir : string)
| TrimDatasetColumnsTask (dataset_name processed_dir trimmed_dir : string)
| CleanupTask (dataset_name : string) (cleanup_dirs : list string).

Global Instance Task_eq_dec : EqDecision Task.
Proof. solve_decision. Defined.

(** The defaults of the [luigi.Parameter]s. *)
Definition default_dataset_name : string := "GSE68849".
Definition default_download_dir : string := "data_downloads".
Definition default_extract_dir : string := "data_extracted".
Definition default_processed_dir : string := "data_processed".
Definition default_trimmed_dir : string := "data_trimmed".
Definition default_cleanup_dirs : list string := ["data_downloads"; "data_extracted"].

Definition dataset_name (t : Task) : string :=
  match t with
  | DownloadDatasetTask n _ => n
  | ExtractDatasetTask n _ _ => n
  | ProcessDatasetTask n _ _ => n
  | TrimDatasetColumnsTask n _ _ => n
  | CleanupTask n _ => n
  end.

(** [requires]: the task each class constructs as its dependency.  A
    parameter that the call does not pass takes its default. *)
Definition requires (t : Task) : list Task :=
  match t with
  | DownloadDatasetTask _ _ => []
  | ExtractDatasetTask n download_dir _ =>
      [DownloadDatasetTask n download_dir]
  | ProcessDatasetTask n _ _ =>
      [ExtractDatasetTask n default_download_dir default_extract_dir]
  | TrimDatasetColumnsTask n _ _ =>
      [ProcessDatasetTask n default_extract_dir default_processed_dir]
  | CleanupTask n _ =>
      [TrimDatasetColumnsTask n default_processed_dir default_trimmed_dir]
  end.

(** [CleanupTask.output]: the path of the sentinel. *)
Definition cleanup_status : string := "cleanup_status.done".

(** [output]: the path of the [luigi.LocalTarget]. *)
Definition output (t : Task) : string :=
  match t with
  | DownloadDatasetTask n download_dir => OsPath.join download_dir (n +:+ "_RAW.tar")
  | ExtractDatasetTask _ _ extract_dir => extract_dir
  | ProcessDatasetTask _ _ processed_dir => processed_dir
  | TrimDatasetColumnsTask _ _ trimmed_dir => trimmed_dir
  | CleanupTask _ _ => cleanup_status
  end.

(** [LocalTarget.exists] of the output: luigi's [Task.complete]. *)
Definition complete (t : Task) (fs : FS) : bool :=
  Os.path_exists fs (output t).

(** *** The [run] bodies *)

(** [DownloadDatasetTask.run] *)
Definition DownloadDatasetTask_run (env : Env) (n download_dir : string) : M unit :=
  do _ <- Os.makedirs download_dir then
  let url := download_url n in
  do content <- lift (fetch env url) URLError then
  Os.write_file (output (DownloadDatasetTask n download_dir)) content.

(** [tar.extractall(path=extract_dir)], one member: the directories above
    it are made, then the member. *)
Definition extract_member (extract_dir : string) (m : string * node) : M unit :=
  let target := OsPath.join extract_dir m.1 in
  match m.2 with
  | Dir => Os.mkdirs_from [] (Os.components target)
  | File content =>
      do _ <- Os.mkdirs_from [] (removelast (Os.components target)) then
      Os.write_file target content
  end.

(** [ExtractDatasetTask.run]; [self.input().path] is the output of the task
    of [requires]. *)
Definition ExtractDatasetTask_run (env : Env) (n download_dir extract_dir : string)
  : M unit :=
  do _ <- Os.makedirs extract_dir then
  do archive <- Os.read_file (output (DownloadDatasetTask n download_dir)) then
  do members <- lift (untar env archive) ReadError then
  for_each members (extract_member extract_dir).

(** [ProcessDatasetTask._decompress_file] *)
Definition decompress_file (env : Env) (processed_dir file_path : string) : M unit :=
  do compressed <- Os.read_file file_path then
  do content <- lift (gunzip env compressed) BadGzipFile then
  Os.write_file (decompress_output_file_path processed_dir file_path) content.

(** [ProcessDatasetTask.run] *)
Definition ProcessDatasetTask_run (env : Env) (extract_dir processed_dir : string)
  : M unit :=
  do _ <- Os.makedirs processed_dir then
  λ fs,
    for_each (Os.walk_files extract_dir fs)
      (λ rf, if PyStr.endswith rf.2 ".txt.gz"
             then decompress_file env processed_dir (OsPath.join rf.1 rf.2)
             else ret tt)
      fs.

(** [TrimDatasetColumnsTask._trim_columns] *)
Definition trim_columns (env : Env) (trimmed_dir file_path : string)
    (columns_to_remove : list string) : M unit :=
  do text <- Os.read_file file_path then
  do df <- lift (read_csv env text) ParserError then
  let trimmed_df := drop df columns_to_remove in
  Os.write_file (trim_output_file_path trimmed_dir file_path) (to_csv env trimmed_df).

(** [TrimDatasetColumnsTask.run] *)
Definition TrimDatasetColumnsTask_run (env : Env) (processed_dir trimmed_dir : string)
  : M unit :=
  do _ <- Os.makedirs trimmed_dir then
  λ fs,
    for_each (Os.walk_files processed_dir fs)
      (λ rf, if PyStr.endswith rf.2 "_processed.txt"
             then trim_columns env trimmed_dir (OsPath.join rf.1 rf.2) columns_to_remove
             else ret tt)
      fs.

(** The loop of [CleanupTask.run]. *)
Definition cleanup_loop (cleanup_dirs : list string) : M unit :=
  for_each cleanup_dirs
    (λ directory fs,
       if Os.path_exists fs directory then Os.rmtree directory fs
       else (Ok tt, fs)).

(** [CleanupTask.run] *)
Definition CleanupTask_run (cleanup_dirs : list string) : M unit :=
  do _ <- cleanup_loop cleanup_dirs then
  Os.write_file cleanup_status "Cleanup completed.".

(** [run] of a task. *)
Definition execute (env : Env) (t : Task) : M unit :=
  match t with
  | DownloadDatasetTask n download_dir => DownloadDatasetTask_run env n download_dir
  | ExtractDatasetTask n download_dir extract_dir =>
      ExtractDatasetTask_run env n download_dir extract_dir
  | ProcessDatasetTask _ extract_dir processed_dir =>
      ProcessDatasetTask_run env extract_dir processed_dir
  | TrimDatasetColumnsTask _ processed_dir trimmed_dir =>
      TrimDatasetColumnsTask_run env processed_dir trimmed_dir
  | CleanupTask _ cleanup_dirs => CleanupTask_run cleanup_dirs
  end.

(** ** The orchestration core

    [luigi_pipeline.py] hands the resolution and the execution of the tasks
    to [luigi.run()]; the library is not part of the repository.  The
    resolver and the runner below follow sections 4.3 to 4.5 of the
    specification, over any type of tasks. *)

Section Orchestration.

Context {T : Type} `{EqDecision T}.
Variable dependencies : T → list T.
Variable isComplete : T → FS → bool.
Variable exec : T → M unit.

(** Modelled from the spec: the Dependency Resolver of section 4.3 (the
    scheduler of luigi is not in the repository).  A depth-first traversal
    from the target through [dependencies], which records the tasks in
    post-order and visits no task identity twice.  [order] is what has
    been recorded so far; [fuel] bounds the depth of the traversal. *)
Fixpoint visit (fuel : nat) (order : list T) (t : T) : list T :=
  if decide (t ∈ order) then order
  else match fuel with
       | 0 => order ++ [t]
       | S n => foldl (visit n) order (dependencies t) ++ [t]
       end.

(** A topological order: no task twice, and every task after all of its
    dependencies. *)
Definition topological (order : list T) : Prop :=
  NoDup order
  ∧ ∀ before t after, order = before ++ t :: after →
      ∀ d, d ∈ dependencies t → d ∈ before.

Inductive Event :=
| Skipped (t : T)
| Succeeded (t : T)
| Failed (t : T) (e : Error).

(** Modelled from the spec: the Pipeline Runner of section 4.5 with the
    Completion Gate of section 4.4 (the worker of luigi is not in the
    repository).  The tasks of the order are taken one by one: a complete
    task is skipped; an incomplete one is executed, and its failure ends
    the run with the task and its error.  The result is the failure if
    any, the file system the run leaves and the events in order. *)
Fixpoint run_order (order : list T) (fs : FS)
  : option (T * Error) * FS * list Event :=
  match order with
  | [] => (None, fs, [])
  | t :: order' =>
      if isComplete t fs then
        let '(r, fs', events) := run_order order' fs in
        (r, fs', Skipped t :: events)
      else
        match exec t fs with
        | (Ok _, fs1) =>
            let '(r, fs', events) := run_order order' fs1 in
            (r, fs', Succeeded t :: events)
        | (Raise e, fs1) => (Some (t, e), fs1, [Failed t e])
        end
  end.

(** The tasks an event list shows as executed. *)
Definition executed (events : list Event) : list T :=
  omap (λ ev, match ev with
              | Skipped _ => None
              | Succeeded t => Some t
              | Failed t _ => Some t
              end) events.

End Orchestration.

Arguments Skipped {T} t.
Arguments Succeeded {T} t.
Arguments Failed {T} t e.

(** The position of the class of a task in the chain. *)
Definition stage (t : Task) : nat :=
  match t with
  | DownloadDatasetTask _ _ => 0
  | ExtractDatasetTask _ _ _ => 1
  | ProcessDatasetTask _ _ _ => 2
  | TrimDatasetColumnsTask _ _ _ => 3
  | CleanupTask _ _ => 4
  end.

(** The resolved order of a target: the pipeline is a chain of five classes,
    so a traversal of depth five reaches every task. *)
Definition resolve (target : Task) : list Task :=
  visit requires 5 [] target.

(** A run of the pipeline for a target. *)
Definition run (env : Env) (target : Task) (fs : FS)
  : option (Task * Error) * FS * list (Event (T := Task)) :=
  run_order complete (execute env) (resolve target) fs.

(** ** The layout of the remote server

    Where the GEO server keeps the archive of a series is its convention,
    not the repository's: the series [GSE<digits>] lies in the directory
    named after it with its last three digits replaced by [nnn] ([GSEnnn]
    for a series of up to three digits).  It is stated here only to say
    which dataset names [download_url] locates. *)

Definition geo_series_dir (accession : string) : string :=
  let digits := String.substring 3 (String.length accession - 3) accession in
  String.substring 0 3 accession
    +:+ String.substring 0 (String.length digits - 3) digits +:+ "nnn".

Definition geo_archive_url (accession : string) : string :=
  "ftp://ftp.ncbi.nlm.nih.gov/geo/series/" +:+ geo_series_dir accession
    +:+ "/" +:+ accession +:+ "/suppl/" +:+ accession +:+ "_RAW.tar".

(** ** A sample world

    A server that holds the archive of [GSE68849], with one compressed table
    in it; the runs of the examples below take place in it. *)

Definition sample_table : DataFrame :=
  {| index := 2;
     columns := [("ID_REF", ["ILMN_1"; "ILMN_2"]);
                 ("Definition", ["first probe"; "second probe"]);
                 ("Symbol", ["ABC"; "XYZ"]);
                 ("Ontology_Process", ["p1"; "p2"])] |}.

Definition sample_env : Env :=
  {| fetch url :=
       if decide (url = download_url "GSE68849") then Some "<archive>" else None;
     untar archive :=
       if decide (archive = "<archive>")
       then Some [("GPL10558.txt.gz", File "<compressed>")] else None;
     gunzip compressed :=
       if decide (compressed = "<compressed>") then Some "<table>" else None;
     read_csv text :=
       if decide (text = "<table>") then Some sample_table else None;
     to_csv df := String.concat "," ((λ c, c.1) <$> columns df) |}.

(** The same world with a corrupt archive on the server. *)
Definition corrupt_archive_env : Env :=
  {| fetch := fetch sample_env;
     untar _ := None;
     gunzip := gunzip sample_env;
     read_csv := read_csv sample_env;
     to_csv := to_csv sample_env |}.

(** * Properties *)

(** An equation between closed terms, checked by evaluating its left side. *)
Ltac vm_refl :=
  lazymatch goal with
  | |- ?lhs = ?rhs => vm_cast_no_check (eq_refl rhs)
  end.

(** ** Strings and paths *)

Section StringFacts.

Implicit Types (s t u p : string) (a b c : ascii).

Lemma app_cons a s t : String a s +:+ t = String a (s +:+ t).
Proof. reflexivity. Qed.

Lemma app_empty_l t : "" +:+ t = t.
Proof. reflexivity. Qed.

Lemma app_assoc_str s t u : (s +:+ t) +:+ u = s +:+ (t +:+ u).
Proof.
  induction s as [|a s IH]; [reflexivity|].
  rewrite !app_cons. by rewrite IH.
Qed.


Lemma contains_char_app c s t :
  PyStr.contains_char c (s +:+ t)
  = PyStr.contains_char c s || PyStr.contains_char c t.
Proof.
  induction s as [|a s IH]; [reflexivity|].
  rewrite app_cons. simpl. rewrite IH. by rewrite orb_assoc.
Qed.

Lemma endswith_app s suf :
  PyStr.endswith s suf = true → ∃ r, s = r +:+ suf.
Proof.
  induction s as [|a s IH]; cbn [PyStr.endswith].
  - destruct (String.eqb_spec "" suf) as [<-|]; [|done].
    intros _. by exists "".
  - destruct (String.eqb_spec (String a s) suf) as [<-|].
    + intros _. by exists "".
    + intros [r ->]%IH. by exists (String a r).
Qed.

(** An occurrence of [p] cannot begin in [u] and run into what follows,
    when what follows begins with a character that [p] does not have. *)
Lemma startswith_app_fresh p u c t :
  PyStr.contains_char c p = false →
  PyStr.startswith u p = false →
  PyStr.startswith (u +:+ String c t) p = false.
Proof.
  revert u. induction p as [|b p IH]; intros u Hc Hu.
  { by destruct u. }
  simpl in Hc. apply orb_false_elim in Hc as [Hbc Hp].
  destruct u as [|a u].
  - rewrite app_empty_l. simpl. by rewrite Ascii.eqb_sym, Hbc.
  - rewrite app_cons. simpl in *.
    destruct (Ascii.eqb a b); [by apply IH|done].
Qed.

(** The scan of [replace] passes unchanged over a text in which [old] does
    not occur, when [old] begins with a character it has only once. *)
Lemma replace_from_app_fresh c old' new s t :
  PyStr.occurs (String c old') s = false →
  PyStr.contains_char c old' = false →
  PyStr.replace_from (String c old') new 0 (s +:+ String c t)
  = s +:+ PyStr.replace_from (String c old') new 0 (String c t).
Proof.
  intros Hocc Hc.
  remember (PyStr.replace_from (String c old') new 0 (String c t)) as rhs
    eqn:Hrhs.
  induction s as [|a s IH].
  { by rewrite !app_empty_l. }
  cbn [PyStr.occurs] in Hocc. apply orb_false_elim in Hocc as [Hst Hocc].
  rewrite !app_cons. cbn [PyStr.replace_from].
  assert (PyStr.startswith (String a (s +:+ String c t)) (String c old')
          = false) as ->.
  { simpl in *. destruct (Ascii.eqb a c); [|done].
    by apply startswith_app_fresh. }
  by rewrite IH.
Qed.

Lemma basename_no_slash p :
  PyStr.contains_char OsPath.sep p = false → OsPath.basename p = p.
Proof.
  destruct p as [|a p]; [done|]. simpl. by intros ->.
Qed.

Lemma basename_app_slash r f :
  PyStr.contains_char OsPath.sep f = false →
  OsPath.basename (r +:+ String OsPath.sep f) = f.
Proof.
  intros Hf. induction r as [|a r IH].
  - rewrite app_empty_l. simpl. by apply basename_no_slash.
  - rewrite app_cons. cbn [OsPath.basename].
    rewrite contains_char_app. simpl.
    rewrite !orb_true_r. exact IH.
Qed.

(** [os.path.basename(os.path.join(root, file))] is [file], for a [file]
    without a slash (the names that [os.walk] lists have none). *)
Lemma basename_join root file :
  PyStr.contains_char OsPath.sep file = false →
  OsPath.basename (OsPath.join root file) = file.
Proof.
  intros Hf. unfold OsPath.join.
  destruct (PyStr.startswith file "/") eqn:Hst.
  { destruct file as [|a file]; [done|]. simpl in Hst, Hf.
    change OsPath.sep with "/"%char in Hf.
    destruct (Ascii.eqb a "/"); done. }
  destruct (String.eqb_spec root "") as [->|_]; simpl.
  { rewrite app_empty_l. by apply basename_no_slash. }
  destruct (PyStr.endswith root "/") eqn:He.
  - apply endswith_app in He as [r ->].
    rewrite app_assoc_str. by apply basename_app_slash.
  - by apply basename_app_slash.
Qed.

End StringFacts.

Example decompress_name_GPL :
  decompress_output_file_path "data_processed"
    "data_extracted/GPL10558_HumanHT-12_V4_0_R1_15002873_B.txt.gz"
  = "data_processed/GPL10558_HumanHT-12_V4_0_R1_15002873_B.txt_processed.txt".
Proof. reflexivity. Qed.

Example replace_all_occurrences :
  PyStr.replace "a.gz.gz" ".gz" "_" = "a__".
Proof. reflexivity. Qed.

Example replace_no_overlap :
  PyStr.replace "aaa" "aa" "b" = "ba".
Proof. reflexivity. Qed.

Example replace_empty_old :
  PyStr.replace "ab" "" "-" = "-a-b-".
Proof. reflexivity. Qed.

Example split_url :
  PyStr.split "/" (download_url "GSE68849")
  = ["ftp:"; ""; "ftp.ncbi.nlm.nih.gov"; "geo"; "series"; "GSE68nnn";
     "GSE68849"; "suppl"; "GSE68849_RAW.tar"].
Proof. reflexivity. Qed.

(** *** The names of the normalize and project stages *)

(** C1, as stated, fails: for [foo.txt.gz], [_decompress_file] replaces
    [.gz] by [_processed.txt] and keeps the [.txt] before it, so the name is
    [foo.txt_processed.txt], and [_trim_columns] then writes
    [foo.txt_trimmed.txt]. *)
Lemma C1_foo_names_differ :
  ¬ (OsPath.basename
       (decompress_output_file_path "data_processed" "data_extracted/foo.txt.gz")
     = "foo_processed.txt"
     ∧ OsPath.basename
         (trim_output_file_path "data_trimmed"
            (decompress_output_file_path "data_processed" "data_extracted/foo.txt.gz"))
       = "foo_trimmed.txt").
Proof. vm_compute. intros [H _]. discriminate H. Qed.

(** C1, amended: for an input file named [stem.txt.gz], found in any
    directory [root], the normalize stage writes its output under the name
    [stem.txt_processed.txt] in [processed_dir], and the project stage then
    writes [stem.txt_trimmed.txt] in [trimmed_dir]; [stem] has no slash and
    no [.gz] in it, and [stem.txt] no [_processed.txt]. *)
Theorem C1_filename_transformation
    (root stem processed_dir trimmed_dir : string) :
  PyStr.contains_char OsPath.sep stem = false →
  PyStr.occurs ".gz" stem = false →
  PyStr.occurs "_processed.txt" (stem +:+ ".txt") = false →
  let processed :=
    decompress_output_file_path processed_dir
      (OsPath.join root (stem +:+ ".txt.gz")) in
  let trimmed := trim_output_file_path trimmed_dir processed in
  processed = OsPath.join processed_dir (stem +:+ ".txt_processed.txt")
  ∧ OsPath.basename processed = stem +:+ ".txt_processed.txt"
  ∧ trimmed = OsPath.join trimmed_dir (stem +:+ ".txt_trimmed.txt")
  ∧ OsPath.basename trimmed = stem +:+ ".txt_trimmed.txt".
Proof.
  intros Hslash Hgz Hproc processed trimmed.
  assert (Hp : processed
               = OsPath.join processed_dir (stem +:+ ".txt_processed.txt")).
  { unfold processed, decompress_output_file_path.
    rewrite basename_join
      by (rewrite contains_char_app, Hslash; reflexivity).
    unfold PyStr.replace.
    by rewrite (replace_from_app_fresh "." "gz"). }
  assert (Hb : OsPath.basename processed = stem +:+ ".txt_processed.txt").
  { rewrite Hp. apply basename_join.
    rewrite contains_char_app, Hslash. reflexivity. }
  assert (Ht : trimmed = OsPath.join trimmed_dir (stem +:+ ".txt_trimmed.txt")).
  { unfold trimmed, trim_output_file_path. rewrite Hb.
    unfold PyStr.replace.
    change (stem +:+ ".txt_processed.txt")
      with (stem +:+ (".txt" +:+ "_processed.txt")).
    rewrite <- app_assoc_str.
    rewrite (replace_from_app_fresh "_" "processed.txt") by done.
    by rewrite app_assoc_str. }
  repeat split; [done..|].
  rewrite Ht. apply basename_join.
  rewrite contains_char_app, Hslash. reflexivity.
Qed.

Lemma C1_filename_transformation_witness :
  PyStr.contains_char OsPath.sep "foo" = false
  ∧ PyStr.occurs ".gz" "foo" = false
  ∧ PyStr.occurs "_processed.txt" ("foo" +:+ ".txt") = false
  ∧ let processed :=
      decompress_output_file_path "data_processed"
        (OsPath.join "data_extracted" ("foo" +:+ ".txt.gz")) in
    let trimmed := trim_output_file_path "data_trimmed" processed in
    processed = OsPath.join "data_processed" ("foo" +:+ ".txt_processed.txt")
    ∧ OsPath.basename processed = "foo" +:+ ".txt_processed.txt"
    ∧ trimmed = OsPath.join "data_trimmed" ("foo" +:+ ".txt_trimmed.txt")
    ∧ OsPath.basename trimmed = "foo" +:+ ".txt_trimmed.txt".
Proof.
  split; [reflexivity|]. split; [reflexivity|]. split; [reflexivity|].
  apply (C1_filename_transformation "data_extracted" "foo" "data_processed"
           "data_trimmed"); reflexivity.
Defined.

(** ** The download URL *)

Example geo_series_dir_GSE68849 : geo_series_dir "GSE68849" = "GSE68nnn".
Proof. reflexivity. Qed.

Example geo_series_dir_GSE1234 : geo_series_dir "GSE1234" = "GSE1nnn".
Proof. reflexivity. Qed.

Example geo_series_dir_GSE12 : geo_series_dir "GSE12" = "GSEnnn".
Proof. reflexivity. Qed.

Example download_url_other_series :
  download_url "GSE12345"
  = "ftp://ftp.ncbi.nlm.nih.gov/geo/series/GSE68nnn/GSE12345/suppl/GSE12345_RAW.tar"
  ∧ geo_archive_url "GSE12345"
    = "ftp://ftp.ncbi.nlm.nih.gov/geo/series/GSE12nnn/GSE12345/suppl/GSE12345_RAW.tar".
Proof. split; reflexivity. Qed.


(** ** The statements of the [run] bodies *)

Section MonadFacts.

Context {A B : Type}.

Lemma bind_Ok (m : M A) (f : A → M B) fs b fs' :
  bind m f fs = (Ok b, fs') ↔
  ∃ a fs1, m fs = (Ok a, fs1) ∧ f a fs1 = (Ok b, fs').
Proof.
  unfold bind. destruct (m fs) as [[a|e] fs1]; split.
  - intros Hf. by exists a, fs1.
  - intros (a' & fs1' & Heq & Hf). by simplify_eq.
  - intros Heq. discriminate Heq.
  - intros (a' & fs1' & Heq & Hf). discriminate Heq.
Qed.

Lemma bind_Raise (m : M A) (f : A → M B) fs e fs' :
  bind m f fs = (Raise e, fs') ↔
  m fs = (Raise e, fs')
  ∨ ∃ a fs1, m fs = (Ok a, fs1) ∧ f a fs1 = (Raise e, fs').
Proof.
  unfold bind. destruct (m fs) as [[a|e0] fs1]; split.
  - intros Hf. right. by exists a, fs1.
  - intros [Heq|(a' & fs1' & Heq & Hf)]; [discriminate Heq|by simplify_eq].
  - intros [= -> ->]. by left.
  - intros [[= -> ->]|(a' & fs1' & Heq & Hf)]; [done|discriminate Heq].
Qed.

Lemma lift_Ok (o : option A) e fs a fs' :
  lift o e fs = (Ok a, fs') ↔ o = Some a ∧ fs' = fs.
Proof.
  destruct o as [a0|]; unfold lift, ret, raise; split.
  - by intros [= -> ->].
  - by intros [[= ->] ->].
  - intros Heq. discriminate Heq.
  - by intros [? _].
Qed.

Lemma lift_Raise (o : option A) e fs e' fs' :
  lift o e fs = (Raise e', fs') ↔ o = None ∧ e' = e ∧ fs' = fs.
Proof.
  destruct o as [a0|]; unfold lift, ret, raise; split.
  - intros Heq. discriminate Heq.
  - by intros [? _].
  - by intros [= -> ->].
  - by intros (_ & -> & ->).
Qed.

End MonadFacts.

Section OsFacts.

Implicit Types (fs : FS) (k q : list string) (p : string).

Lemma look_cons fs c k : Os.look fs (c :: k) = fs !! (c :: k).
Proof. reflexivity. Qed.

Lemma look_nonroot fs k : k ≠ [] → Os.look fs k = fs !! k.
Proof. by destruct k. Qed.

Lemma read_file_Ok p fs c fs' :
  Os.read_file p fs = (Ok c, fs') ↔
  p ≠ "" ∧ Os.look fs (Os.components p) = Some (File c) ∧ fs' = fs.
Proof.
  unfold Os.read_file. case_decide as Hp.
  { split; [intros Heq; discriminate Heq|by intros [? _]]. }
  destruct (Os.look fs (Os.components p)) as [[c'|]|]; split;
    try (intros Heq; discriminate Heq);
    try (by intros (_ & ? & _)).
  - by intros [= -> ->].
  - by intros (_ & [= ->] & ->).
Qed.

Lemma write_file_Ok p c fs fs' :
  Os.write_file p c fs = (Ok tt, fs') ↔
  p ≠ "" ∧ Os.components p ≠ []
  ∧ Os.look fs (Os.components p) ≠ Some Dir
  ∧ Os.look fs (removelast (Os.components p)) = Some Dir
  ∧ fs' = <[Os.components p := File c]> fs.
Proof.
  unfold Os.write_file. case_decide as Hp.
  { split; [intros Heq; discriminate Heq|by intros [? _]]. }
  destruct (Os.components p) as [|c0 k] eqn:Hk.
  { simpl. split; [intros Heq; discriminate Heq|by intros (_ & ? & _)]. }
  rewrite look_cons.
  destruct (fs !! (c0 :: k)) as [[?|]|];
    destruct (Os.look fs (removelast (c0 :: k))) as [[?|]|]; split;
    try (intros Heq; discriminate Heq);
    try (by intros (_ & _ & ? & _));
    try (by intros (_ & _ & _ & ? & _));
    try (by intros [= <-]);
    by intros (_ & _ & _ & _ & ->).
Qed.

Lemma write_file_look p c fs fs' :
  Os.write_file p c fs = (Ok tt, fs') →
  Os.look fs' (Os.components p) = Some (File c).
Proof.
  intros (_ & Hk & _ & _ & ->)%write_file_Ok.
  rewrite look_nonroot by done. apply lookup_insert_eq.
Qed.

End OsFacts.

(** ** The column projection *)

Section DropFacts.

Implicit Types (df : DataFrame) (labels : list string).





End DropFacts.

Example drop_sample_table :
  drop sample_table columns_to_remove
  = {| index := 2;
       columns := [("ID_REF", ["ILMN_1"; "ILMN_2"]); ("Symbol", ["ABC"; "XYZ"])] |}.
Proof. by vm_compute. Qed.



(** ** The resolver *)

Section ResolverFacts.

Context {T : Type} `{EqDecision T}.
Variable dependencies : T → list T.
Variable rank : T → nat.
Hypothesis rank_dependencies : ∀ t d, d ∈ dependencies t → rank d < rank t.

Implicit Types (l order : list T) (t d x : T).

Lemma topological_nil : topological dependencies [].
Proof.
  split; [constructor|]. intros before t after Heq.
  by destruct before.
Qed.

Lemma topological_snoc l t :
  topological dependencies l →
  t ∉ l →
  (∀ d, d ∈ dependencies t → d ∈ l) →
  topological dependencies (l ++ [t]).
Proof.
  intros [Hnd Hdeps] Hnew Hin. split.
  - apply NoDup_app. split; [done|]. split; [|apply NoDup_singleton].
    intros x Hx ->%list_elem_of_singleton. done.
  - intros before x after Heq d Hd.
    destruct after as [|y after _] using rev_ind.
    + apply app_inj_tail in Heq as [<- <-]. by apply Hin.
    + rewrite app_comm_cons, app_assoc in Heq.
      apply app_inj_tail in Heq as [Heq _].
      by eapply Hdeps.
Qed.

Lemma foldl_visit_ok n :
  (∀ l t, rank t ≤ n → topological dependencies l →
     let l' := visit dependencies n l t in
     topological dependencies l'
     ∧ l `prefix_of` l'
     ∧ t ∈ l'
     ∧ (t ∉ l → last l' = Some t)
     ∧ (∀ x, x ∈ l' → x ∈ l ∨ rank x ≤ rank t)) →
  ∀ ds l, (∀ d, d ∈ ds → rank d ≤ n) → topological dependencies l →
    let l' := foldl (visit dependencies n) l ds in
    topological dependencies l'
    ∧ l `prefix_of` l'
    ∧ (∀ d, d ∈ ds → d ∈ l')
    ∧ (∀ x, x ∈ l' → x ∈ l ∨ ∃ d, d ∈ ds ∧ rank x ≤ rank d).
Proof.
  intros Hvisit ds. induction ds as [|d ds IH]; intros l Hrank Htopo; simpl.
  { split; [done|]. split; [done|]. split; [by intros ? ?%elem_of_nil|].
    by left. }
  destruct (Hvisit l d) as (Htopo1 & Hpre1 & Hin1 & _ & Hrank1);
    [apply Hrank; left|done|].
  destruct (IH (visit dependencies n l d)) as (Htopo2 & Hpre2 & Hin2 & Hrank2);
    [intros; apply Hrank; by right|done|].
  split; [done|]. split; [by etrans|]. split.
  - intros d' [-> |Hd']%elem_of_cons; [|by apply Hin2].
    destruct Hpre2 as [k ->]. apply elem_of_app. by left.
  - intros x Hx. destruct (Hrank2 x Hx) as [Hx1|(d' & Hd' & Hle)].
    + destruct (Hrank1 x Hx1) as [?|?]; [by left|].
      right. exists d. split; [left|done].
    + right. exists d'. split; [by right|done].
Qed.

(** What a traversal adds to an order is below the task it starts from. *)
Lemma visit_spec fuel l t :
  rank t ≤ fuel → topological dependencies l →
  let l' := visit dependencies fuel l t in
  topological dependencies l'
  ∧ l `prefix_of` l'
  ∧ t ∈ l'
  ∧ (t ∉ l → last l' = Some t)
  ∧ (∀ x, x ∈ l' → x ∈ l ∨ rank x ≤ rank t).
Proof.
  revert l t. induction fuel as [|n IH]; intros l t Hfuel Htopo; simpl.
  - destruct (decide (t ∈ l)) as [Hin|Hnew].
    { split; [done|]. split; [done|]. split; [done|]. split; [done|].
      by left. }
    assert (Hnodeps : ∀ d, d ∈ dependencies t → d ∈ l).
    { intros d Hd%rank_dependencies. lia. }
    split; [by apply topological_snoc|].
    split; [by apply prefix_app_r|].
    split; [apply elem_of_app; right; left|].
    split; [intros _; apply last_snoc|].
    intros x [?| ->%list_elem_of_singleton]%elem_of_app; [by left|by right].
  - destruct (decide (t ∈ l)) as [Hin|Hnew].
    { split; [done|]. split; [done|]. split; [done|]. split; [done|].
      by left. }
    destruct (foldl_visit_ok n IH (dependencies t) l)
      as (Htopo' & Hpre' & Hin' & Hrank'); [|done|].
    { intros d Hd%rank_dependencies. lia. }
    assert (t ∉ foldl (visit dependencies n) l (dependencies t)) as Hnew'.
    { intros [?|(d & Hd%rank_dependencies & Hle)]%Hrank'; [done|lia]. }
    split; [by apply topological_snoc|].
    split; [by apply prefix_app_r|].
    split; [apply elem_of_app; right; left|].
    split; [intros _; apply last_snoc|].
    intros x [Hx| ->%list_elem_of_singleton]%elem_of_app; [|by right].
    destruct (Hrank' x Hx) as [?|(d & Hd%rank_dependencies & Hle)];
      [by left|right; lia].
Qed.

(** The resolver contract of section 4.3, for any acyclic dependency
    relation and enough fuel. *)
Lemma visit_topological fuel target :
  rank target ≤ fuel →
  let order := visit dependencies fuel [] target in
  topological dependencies order ∧ last order = Some target.
Proof.
  intros Hfuel.
  destruct (visit_spec fuel [] target Hfuel topological_nil)
    as (Htopo & _ & _ & Hlast & _).
  split; [done|]. apply Hlast, not_elem_of_nil.
Qed.

End ResolverFacts.

(** ** The runner *)

Section RunnerFacts.

Context {T : Type} `{EqDecision T}.
Variable isComplete : T → FS → bool.
Variable exec : T → M unit.

Implicit Types (order : list T) (fs : FS).

(** A run executes tasks of the order, in the order, each at most as often
    as it is listed. *)
Lemma executed_sublist order fs :
  executed (run_order isComplete exec order fs).2 `sublist_of` order.
Proof.
  revert fs. induction order as [|t order IH]; intros fs; simpl; [done|].
  destruct (isComplete t fs).
  - specialize (IH fs).
    destruct (run_order isComplete exec order fs) as [[r fs'] events].
    simpl in *. by apply sublist_cons.
  - destruct (exec t fs) as [[[]|e] fs1].
    + specialize (IH fs1).
      destruct (run_order isComplete exec order fs1) as [[r fs'] events].
      simpl in *. by apply sublist_skip.
    + simpl. apply sublist_skip, sublist_nil_l.
Qed.

End RunnerFacts.

(** ** The resolved order of the pipeline *)

Lemma stage_requires t d : d ∈ requires t → stage d < stage t.
Proof.
  destruct t; simpl; intros Hd;
    repeat (apply elem_of_cons in Hd as [-> |Hd]; [simpl; lia|]);
    by apply elem_of_nil in Hd.
Qed.

Lemma stage_le_4 t : stage t ≤ 4.
Proof. destruct t; simpl; lia. Qed.

Lemma resolve_topological target :
  topological requires (resolve target) ∧ last (resolve target) = Some target.
Proof.
  apply (visit_topological requires stage stage_requires).
  pose proof (stage_le_4 target). lia.
Qed.

Example resolve_default_cleanup :
  resolve (CleanupTask "GSE68849" default_cleanup_dirs)
  = [DownloadDatasetTask "GSE68849" "data_downloads";
     ExtractDatasetTask "GSE68849" "data_downloads" "data_extracted";
     ProcessDatasetTask "GSE68849" "data_extracted" "data_processed";
     TrimDatasetColumnsTask "GSE68849" "data_processed" "data_trimmed";
     CleanupTask "GSE68849" default_cleanup_dirs].
Proof. by vm_compute. Qed.

(** C8: for every run target the resolved order lists no task identity
    twice, ends with the target, and has every task after all the tasks it
    requires; a run executes tasks of this order only, each at most once. *)
Theorem C8_resolved_order_topological (target : Task) :
  let order := resolve target in
  NoDup order
  ∧ last order = Some target
  ∧ (∀ before t after, order = before ++ t :: after →
       ∀ d, d ∈ requires t → d ∈ before)
  ∧ (∀ env fs,
       executed (run env target fs).2 `sublist_of` order
       ∧ NoDup (executed (run env target fs).2)).
Proof.
  destruct (resolve_topological target) as [[Hnd Hdeps] Hlast].
  split; [done|]. split; [done|]. split; [done|].
  intros env fs.
  pose proof (executed_sublist complete (execute env) (resolve target) fs) as Hsub.
  split; [done|]. by eapply sublist_NoDup.
Qed.

(** The resolved order of each class of target. *)
Lemma resolve_DownloadDatasetTask n download_dir :
  resolve (DownloadDatasetTask n download_dir)
  = [DownloadDatasetTask n download_dir].
Proof. reflexivity. Qed.

Lemma resolve_ExtractDatasetTask n download_dir extract_dir :
  resolve (ExtractDatasetTask n download_dir extract_dir)
  = [DownloadDatasetTask n download_dir;
     ExtractDatasetTask n download_dir extract_dir].
Proof. reflexivity. Qed.

Lemma resolve_ProcessDatasetTask n extract_dir processed_dir :
  resolve (ProcessDatasetTask n extract_dir processed_dir)
  = [DownloadDatasetTask n default_download_dir;
     ExtractDatasetTask n default_download_dir default_extract_dir;
     ProcessDatasetTask n extract_dir processed_dir].
Proof. reflexivity. Qed.

Lemma resolve_TrimDatasetColumnsTask n processed_dir trimmed_dir :
  resolve (TrimDatasetColumnsTask n processed_dir trimmed_dir)
  = [DownloadDatasetTask n default_download_dir;
     ExtractDatasetTask n default_download_dir default_extract_dir;
     ProcessDatasetTask n default_extract_dir default_processed_dir;
     TrimDatasetColumnsTask n processed_dir trimmed_dir].
Proof. reflexivity. Qed.

Lemma resolve_CleanupTask n cleanup_dirs :
  resolve (CleanupTask n cleanup_dirs)
  = [DownloadDatasetTask n default_download_dir;
     ExtractDatasetTask n default_download_dir default_extract_dir;
     ProcessDatasetTask n default_extract_dir default_processed_dir;
     TrimDatasetColumnsTask n default_processed_dir default_trimmed_dir;
     CleanupTask n cleanup_dirs].
Proof. reflexivity. Qed.

(** ** Parameters along the chain *)

(** The dataset name reaches every task of the resolved order unchanged. *)
Lemma dataset_name_threaded target t :
  t ∈ resolve target → dataset_name t = dataset_name target.
Proof.
  destruct target; cbv [resolve visit requires foldl]; simpl;
    intros Ht; repeat (apply elem_of_cons in Ht as [-> |Ht]; [done|]);
    by apply elem_of_nil in Ht.
Qed.

(** [ExtractDatasetTask.requires] hands its [download_dir] on. *)
Lemma download_dir_threaded n download_dir extract_dir :
  requires (ExtractDatasetTask n download_dir extract_dir)
  = [DownloadDatasetTask n download_dir].
Proof. reflexivity. Qed.

(** C3 at the target [TrimDatasetColumnsTask('GSE68849', 'my_processed',
    'data_trimmed')]: the task it requires is constructed with the dataset
    name only, so the normalize stage takes the default [data_processed] and
    not the location given at the target.  In the sample world the run
    succeeds, the normalize stage writes under [data_processed], the project
    stage walks [my_processed], which nothing has written, and leaves
    [data_trimmed] empty. *)
Theorem C3_location_override_not_threaded :
  let target := TrimDatasetColumnsTask "GSE68849" "my_processed" "data_trimmed" in
  let result := run sample_env target ∅ in
  let fs := result.1.2 in
  requires target = [ProcessDatasetTask "GSE68849" "data_extracted" "data_processed"]
  ∧ result.1.1 = None
  ∧ result.2
    = [Succeeded (DownloadDatasetTask "GSE68849" "data_downloads");
       Succeeded (ExtractDatasetTask "GSE68849" "data_downloads" "data_extracted");
       Succeeded (ProcessDatasetTask "GSE68849" "data_extracted" "data_processed");
       Succeeded target]
  ∧ Os.walk_files "data_processed" fs
    = [("data_processed", "GPL10558.txt_processed.txt")]
  ∧ Os.walk_files "my_processed" fs = []
  ∧ Os.walk_files "data_trimmed" fs = [].
Proof.
  repeat split; vm_refl.
Qed.

(** ** Statements that remove nothing *)

Section GrowsFacts.

Implicit Types (fs : FS) (k q : list string) (p : string).

Lemma grows_refl fs : grows fs fs.
Proof. by intros k. Qed.

Lemma grows_trans fs1 fs2 fs3 : grows fs1 fs2 → grows fs2 fs3 → grows fs1 fs3.
Proof. intros H12 H23 k Hk. by apply H23, H12. Qed.

Lemma grows_insert fs k n : grows fs (<[k := n]> fs).
Proof.
  intros q Hq. destruct (decide (k = q)) as [->|Hne].
  - rewrite lookup_insert_eq. by eexists.
  - by rewrite lookup_insert_ne.
Qed.

Lemma grows_look fs fs' k :
  grows fs fs' → is_Some (Os.look fs k) → is_Some (Os.look fs' k).
Proof. intros Hg. destruct k; [done|]. apply Hg. Qed.

Lemma path_exists_true fs p :
  Os.path_exists fs p = true
  ↔ p ≠ "" ∧ is_Some (Os.look fs (Os.components p)).
Proof.
  unfold Os.path_exists. case_decide as Hp.
  { split; [intros Heq; discriminate Heq|by intros [? _]]. }
  rewrite bool_decide_eq_true. split; [done|by intros [_ ?]].
Qed.

Lemma grows_path_exists fs fs' p :
  grows fs fs' → Os.path_exists fs p = true → Os.path_exists fs' p = true.
Proof.
  rewrite !path_exists_true. intros Hg [Hp Hk].
  split; [done|]. by eapply grows_look.
Qed.

Lemma monotone_ret {A} (a : A) : monotone (ret a).
Proof. intros fs r fs' [= _ <-]. apply grows_refl. Qed.

Lemma monotone_raise {A} e : monotone (raise (A := A) e).
Proof. intros fs r fs' [= _ <-]. apply grows_refl. Qed.

Lemma monotone_lift {A} (o : option A) e : monotone (lift o e).
Proof. destruct o; [apply monotone_ret|apply monotone_raise]. Qed.

Lemma monotone_bind {A B} (m : M A) (f : A → M B) :
  monotone m → (∀ a, monotone (f a)) → monotone (bind m f).
Proof.
  intros Hm Hf fs r fs'. unfold bind.
  destruct (m fs) as [[a|e] fs1] eqn:Hrun.
  - intros Hk. eapply grows_trans; [by eapply Hm|by eapply Hf].
  - intros [= _ <-]. by eapply Hm.
Qed.

Lemma monotone_for_each {A} (l : list A) (body : A → M unit) :
  (∀ x, monotone (body x)) → monotone (for_each l body).
Proof.
  intros Hbody. induction l as [|x l IH]; simpl.
  - apply monotone_ret.
  - apply monotone_bind; [done|]. by intros _.
Qed.

Lemma monotone_read_file p : monotone (Os.read_file p).
Proof.
  intros fs r fs'. unfold Os.read_file.
  case_decide; [|destruct (Os.look fs (Os.components p)) as [[?|]|]];
    intros [= _ <-]; apply grows_refl.
Qed.

Lemma monotone_write_file p c : monotone (Os.write_file p c).
Proof.
  intros fs r fs'. unfold Os.write_file.
  case_decide; [intros [= _ <-]; apply grows_refl|].
  destruct (Os.look fs (Os.components p)) as [[?|]|];
    try (intros [= _ <-]; apply grows_refl);
    destruct (Os.look fs (removelast (Os.components p))) as [[?|]|];
    intros [= _ <-]; first [apply grows_refl|apply grows_insert].
Qed.

Lemma write_file_exists p c fs fs' :
  Os.write_file p c fs = (Ok tt, fs') → Os.path_exists fs' p = true.
Proof.
  intros Hw. apply path_exists_true.
  pose proof (write_file_look _ _ _ _ Hw) as Hlook.
  apply write_file_Ok in Hw as (Hp & _). split; [done|].
  rewrite Hlook. by eexists.
Qed.

Lemma mkdirs_from_grows above todo fs r fs' :
  Os.mkdirs_from above todo fs = (r, fs') → grows fs fs'.
Proof.
  revert above fs. induction todo as [|c rest IH]; intros above fs; simpl.
  { intros [= _ <-]. apply grows_refl. }
  destruct (fs !! (above ++ [c])) as [[?|]|].
  - intros [= _ <-]. apply grows_refl.
  - apply IH.
  - intros Hrec%IH. eapply grows_trans; [apply grows_insert|done].
Qed.

Lemma mkdirs_from_Ok above todo fs fs' :
  Os.mkdirs_from above todo fs = (Ok tt, fs') →
  todo ≠ [] →
  fs' !! (above ++ todo) = Some Dir.
Proof.
  revert above fs. induction todo as [|c rest IH]; intros above fs; [done|].
  simpl. intros Hrun _.
  rewrite (cons_middle c above rest), app_assoc.
  destruct (fs !! (above ++ [c])) as [[?|]|] eqn:Hq; [done| |].
  - destruct rest as [|c' rest].
    + simpl in Hrun. injection Hrun as <-. by rewrite app_nil_r.
    + by eapply IH.
  - destruct rest as [|c' rest].
    + simpl in Hrun. injection Hrun as <-.
      rewrite app_nil_r. apply lookup_insert_eq.
    + by eapply IH.
Qed.

Lemma monotone_mkdirs_from above todo : monotone (Os.mkdirs_from above todo).
Proof. intros fs r fs'. apply mkdirs_from_grows. Qed.

Lemma monotone_makedirs p : monotone (Os.makedirs p).
Proof.
  intros fs r fs'. unfold Os.makedirs.
  case_decide; [intros [= _ <-]; apply grows_refl|].
  apply mkdirs_from_grows.
Qed.

(** After [os.makedirs(p, exist_ok=True)] the path exists. *)
Lemma makedirs_exists p fs fs' :
  Os.makedirs p fs = (Ok tt, fs') → Os.path_exists fs' p = true.
Proof.
  unfold Os.makedirs. case_decide as Hp; [done|].
  intros Hrun. apply path_exists_true. split; [done|].
  destruct (Os.components p) as [|c k] eqn:Hk; [by eexists|].
  apply mkdirs_from_Ok in Hrun; [|done].
  rewrite look_cons. simpl in Hrun. rewrite Hrun. by eexists.
Qed.

(** A body that makes a directory first and removes nothing afterwards
    leaves the directory, however it ends. *)
Lemma makedirs_then_exists p (rest : M unit) fs fs1 r fs' :
  monotone rest →
  Os.makedirs p fs = (Ok tt, fs1) →
  bind (Os.makedirs p) (λ _, rest) fs = (r, fs') →
  Os.path_exists fs' p = true.
Proof.
  intros Hrest Hmk. unfold bind. rewrite Hmk. intros Hrun%Hrest.
  eapply grows_path_exists; [done|]. by eapply makedirs_exists.
Qed.

End GrowsFacts.

(** ** The stage bodies *)

Section StageFacts.

Variable env : Env.

Lemma monotone_extract_member extract_dir m :
  monotone (extract_member extract_dir m).
Proof.
  unfold extract_member. destruct m as [name [content|]]; simpl.
  - apply monotone_bind; [apply monotone_mkdirs_from|].
    intros _. apply monotone_write_file.
  - apply monotone_mkdirs_from.
Qed.

Lemma monotone_decompress_file processed_dir file_path :
  monotone (decompress_file env processed_dir file_path).
Proof.
  unfold decompress_file.
  apply monotone_bind; [apply monotone_read_file|]. intros compressed.
  apply monotone_bind; [apply monotone_lift|]. intros content.
  apply monotone_write_file.
Qed.

Lemma monotone_trim_columns trimmed_dir file_path labels :
  monotone (trim_columns env trimmed_dir file_path labels).
Proof.
  unfold trim_columns.
  apply monotone_bind; [apply monotone_read_file|]. intros text.
  apply monotone_bind; [apply monotone_lift|]. intros df.
  apply monotone_write_file.
Qed.

(** What follows [os.makedirs] in the three stages that write into a
    directory of their own. *)
Lemma monotone_extract_rest n download_dir extract_dir :
  monotone
    (do archive <- Os.read_file (output (DownloadDatasetTask n download_dir)) then
     do members <- lift (untar env archive) ReadError then
     for_each members (extract_member extract_dir)).
Proof.
  apply monotone_bind; [apply monotone_read_file|]. intros archive.
  apply monotone_bind; [apply monotone_lift|]. intros members.
  apply monotone_for_each. intros m. apply monotone_extract_member.
Qed.

Lemma monotone_process_rest extract_dir processed_dir :
  monotone
    (λ fs,
       for_each (Os.walk_files extract_dir fs)
         (λ rf, if PyStr.endswith rf.2 ".txt.gz"
                then decompress_file env processed_dir (OsPath.join rf.1 rf.2)
                else ret tt)
         fs).
Proof.
  intros fs r fs'. apply monotone_for_each. intros rf.
  destruct (PyStr.endswith rf.2 ".txt.gz");
    [apply monotone_decompress_file|apply monotone_ret].
Qed.

Lemma monotone_trim_rest processed_dir trimmed_dir :
  monotone
    (λ fs,
       for_each (Os.walk_files processed_dir fs)
         (λ rf, if PyStr.endswith rf.2 "_processed.txt"
                then trim_columns env trimmed_dir (OsPath.join rf.1 rf.2)
                       columns_to_remove
                else ret tt)
         fs).
Proof.
  intros fs r fs'. apply monotone_for_each. intros rf.
  destruct (PyStr.endswith rf.2 "_processed.txt");
    [apply monotone_trim_columns|apply monotone_ret].
Qed.

(** The four stages before the clean stage remove nothing. *)
Lemma monotone_execute t : stage t < 4 → monotone (execute env t).
Proof.
  destruct t as [n dl|n dl ex|n ex pr|n pr tr|n dirs]; simpl; intros Hst.
  - unfold DownloadDatasetTask_run.
    apply monotone_bind; [apply monotone_makedirs|]. intros _.
    apply monotone_bind; [apply monotone_lift|]. intros content.
    apply monotone_write_file.
  - apply monotone_bind; [apply monotone_makedirs|]. intros _.
    apply monotone_extract_rest.
  - apply monotone_bind; [apply monotone_makedirs|]. intros _.
    apply monotone_process_rest.
  - apply monotone_bind; [apply monotone_makedirs|]. intros _.
    apply monotone_trim_rest.
  - lia.
Qed.

(** The contract of a task: when [run] ends normally, the output exists. *)
Lemma execute_Ok_complete t fs fs' :
  execute env t fs = (Ok tt, fs') → complete t fs' = true.
Proof.
  unfold complete.
  destruct t as [n dl|n dl ex|n ex pr|n pr tr|n dirs]; simpl.
  - unfold DownloadDatasetTask_run.
    intros ([] & fs1 & _ & Hrest)%bind_Ok.
    apply bind_Ok in Hrest as (content & fs2 & _ & Hwrite).
    by eapply write_file_exists.
  - intros Hrun. pose proof Hrun as ([] & fs1 & Hmk & _)%bind_Ok.
    eapply makedirs_then_exists;
      [apply (monotone_extract_rest n dl ex)|done|done].
  - intros Hrun. pose proof Hrun as ([] & fs1 & Hmk & _)%bind_Ok.
    eapply makedirs_then_exists;
      [apply (monotone_process_rest ex pr)|done|done].
  - intros Hrun. pose proof Hrun as ([] & fs1 & Hmk & _)%bind_Ok.
    eapply makedirs_then_exists;
      [apply (monotone_trim_rest pr tr)|done|done].
  - unfold CleanupTask_run. intros ([] & fs1 & _ & Hwrite)%bind_Ok.
    by eapply write_file_exists.
Qed.

(** The unpack, normalize and project stages make their output directory
    before anything else: once [os.makedirs] has succeeded, the task is
    complete however [run] ends. *)
Lemma makedirs_first_complete t fs fs1 r fs' :
  1 ≤ stage t < 4 →
  Os.makedirs (output t) fs = (Ok tt, fs1) →
  execute env t fs = (r, fs') →
  complete t fs' = true.
Proof.
  unfold complete.
  destruct t as [n dl|n dl ex|n ex pr|n pr tr|n dirs]; simpl;
    intros Hst Hmk Hrun; [lia| | | |lia].
  - eapply makedirs_then_exists;
      [apply (monotone_extract_rest n dl ex)|done|done].
  - eapply makedirs_then_exists;
      [apply (monotone_process_rest ex pr)|done|done].
  - eapply makedirs_then_exists;
      [apply (monotone_trim_rest pr tr)|done|done].
Qed.

End StageFacts.

(** ** The clean stage *)

Section CleanupFacts.

Implicit Types (fs : FS) (k : list string) (d p : string) (dirs : list string).

Lemma lookup_remove_tree k fs q :
  Os.remove_tree k fs !! q = if decide (k `prefix_of` q) then None else fs !! q.
Proof.
  unfold Os.remove_tree. case_decide as Hpre.
  - apply map_lookup_filter_None. right. intros n _ Hnot. by apply Hnot.
  - destruct (fs !! q) as [n|] eqn:Hq.
    + by apply map_lookup_filter_Some.
    + apply map_lookup_filter_None. by left.
Qed.

Lemma path_exists_false fs p :
  Os.path_exists fs p = false
  ↔ p = "" ∨ (Os.components p ≠ [] ∧ fs !! Os.components p = None).
Proof.
  unfold Os.path_exists. case_decide as Hp.
  { split; [by left|done]. }
  rewrite bool_decide_eq_false.
  destruct (Os.components p) as [|c k]; simpl.
  - split; [intros []; by eexists|].
    intros [?|[? _]]; done.
  - rewrite <- eq_None_not_Some. split; [by right|].
    intros [?|[_ ?]]; done.
Qed.




End CleanupFacts.

Example cleanup_skips_absent :
  CleanupTask_run ["data_downloads"; "data_extracted"]
    (<[ ["data_downloads"; "GSE68849_RAW.tar"] := File "<archive>" ]>
       (<[ ["data_downloads"] := Dir ]> ∅))
  = (Ok tt, <[ ["cleanup_status.done"] := File "Cleanup completed." ]> ∅).
Proof. vm_refl. Qed.

Example cleanup_fails_on_regular_file :
  CleanupTask_run ["notes.txt"] (<[ ["notes.txt"] := File "x" ]> ∅)
  = (Raise NotADirectoryError, <[ ["notes.txt"] := File "x" ]> ∅).
Proof. vm_refl. Qed.



(** ** Runs *)

Section RunnerTraceFacts.

Context {T : Type} `{EqDecision T}.
Variable isComplete : T → FS → bool.
Variable exec : T → M unit.

Implicit Types (order before after : list T) (fs : FS) (t k : T).

(** A run over tasks that are all complete executes nothing. *)
Lemma run_order_skipped order fs :
  (∀ t, t ∈ order → isComplete t fs = true) →
  run_order isComplete exec order fs = (None, fs, Skipped <$> order).
Proof.
  induction order as [|t order IH]; intros Hall; simpl; [done|].
  rewrite Hall by left.
  rewrite IH; [done|]. intros t' Ht'. apply Hall. by right.
Qed.

(** A run over an order goes through a first part of it, and goes on with
    the rest when the first part has not failed. *)
Lemma run_order_app before after fs :
  run_order isComplete exec (before ++ after) fs
  = match run_order isComplete exec before fs with
    | (None, fs1, events1) =>
        let '(r, fs2, events2) := run_order isComplete exec after fs1 in
        (r, fs2, events1 ++ events2)
    | (Some failure, fs1, events1) => (Some failure, fs1, events1)
    end.
Proof.
  revert fs. induction before as [|t before IH]; intros fs; simpl.
  { by destruct (run_order isComplete exec after fs) as [[r fs2] events2]. }
  destruct (isComplete t fs).
  - rewrite IH.
    destruct (run_order isComplete exec before fs) as [[[failure|] fs1] events1];
      [done|].
    by destruct (run_order isComplete exec after fs1) as [[r fs2] events2].
  - destruct (exec t fs) as [[[]|e] fs0]; [|done].
    rewrite IH.
    destruct (run_order isComplete exec before fs0) as [[[failure|] fs1] events1];
      [done|].
    by destruct (run_order isComplete exec after fs1) as [[r fs2] events2].
Qed.

(** A failed run: the tasks before the failing one were skipped or
    succeeded, the failing task was incomplete and raised, and the run ends
    there, in the state the task has left. *)
Lemma run_order_failure order fs k e fs1 events :
  run_order isComplete exec order fs = (Some (k, e), fs1, events) →
  ∃ before after events_before fs_k,
    order = before ++ k :: after
    ∧ events = events_before ++ [Failed k e]
    ∧ Forall2 (λ t ev, ev = Skipped t ∨ ev = Succeeded t) before events_before
    ∧ run_order isComplete exec before fs = (None, fs_k, events_before)
    ∧ isComplete k fs_k = false
    ∧ exec k fs_k = (Raise e, fs1).
Proof.
  revert fs events. induction order as [|t order IH]; intros fs events; simpl;
    [done|].
  destruct (isComplete t fs) eqn:Hc.
  - destruct (run_order isComplete exec order fs) as [[r fs'] events'] eqn:Hrun.
    intros [= -> -> <-].
    destruct (IH _ _ Hrun)
      as (before & after & evb & fs_k & -> & -> & Hall & Hbefore & Hk & Hexec).
    exists (t :: before), after, (Skipped t :: evb), fs_k.
    split; [done|]. split; [done|].
    split; [constructor; [by left|done]|].
    split; [|done]. simpl. by rewrite Hc, Hbefore.
  - destruct (exec t fs) as [[[]|e0] fs0] eqn:Hexec0.
    + destruct (run_order isComplete exec order fs0) as [[r fs'] events'] eqn:Hrun.
      intros [= -> -> <-].
      destruct (IH _ _ Hrun)
        as (before & after & evb & fs_k & -> & -> & Hall & Hbefore & Hk & Hexec).
      exists (t :: before), after, (Succeeded t :: evb), fs_k.
      split; [done|]. split; [done|].
      split; [constructor; [by right|done]|].
      split; [|done]. simpl. by rewrite Hc, Hexec0, Hbefore.
    + intros [= -> -> -> <-].
      exists [], order, [], fs. by repeat split.
Qed.

(** The events of a run that has not failed are one per task, in order. *)
Lemma run_order_success order fs fs1 events :
  run_order isComplete exec order fs = (None, fs1, events) →
  Forall2 (λ t ev, ev = Skipped t ∨ ev = Succeeded t) order events.
Proof.
  revert fs events. induction order as [|t order IH]; intros fs events; simpl.
  { intros [= _ <-]. constructor. }
  destruct (isComplete t fs).
  - destruct (run_order isComplete exec order fs) as [[r fs'] events'] eqn:Hrun.
    intros [= -> -> <-]. constructor; [by left|by eapply IH].
  - destruct (exec t fs) as [[[]|e0] fs0]; [|done].
    destruct (run_order isComplete exec order fs0) as [[r fs'] events'] eqn:Hrun.
    intros [= -> -> <-]. constructor; [by right|by eapply IH].
Qed.

Lemma executed_app (events1 events2 : list (Event (T := T))) :
  executed (events1 ++ events2) = executed events1 ++ executed events2.
Proof. unfold executed. apply omap_app. Qed.

Lemma executed_skipped_or_succeeded order (events : list (Event (T := T))) :
  Forall2 (λ t ev, ev = Skipped t ∨ ev = Succeeded t) order events →
  executed events ⊆ order.
Proof.
  induction 1 as [|t ev order events [-> | ->] _ IH]; simpl.
  - done.
  - intros x Hx. right. by apply IH.
  - intros x [-> |Hx]%elem_of_cons; [by left|]. right. by apply IH.
Qed.

End RunnerTraceFacts.

Lemma run_order_skips_prefix {T : Type} (isComplete : T → FS → bool)
    (exec : T → M unit) (before rest : list T) (fs : FS) :
  (∀ t, t ∈ before → isComplete t fs = true) →
  (run_order isComplete exec (before ++ rest) fs).2
  = (Skipped <$> before) ++ (run_order isComplete exec rest fs).2.
Proof.
  intros Hall. rewrite run_order_app, run_order_skipped by done.
  by destruct (run_order isComplete exec rest fs) as [[r fs2] events2].
Qed.

Lemma executed_skipped {T : Type} (order : list T) :
  executed (Skipped <$> order) = [].
Proof. induction order as [|t order IH]; [done|exact IH]. Qed.

(** ** Runs of the pipeline *)

Section PipelineFacts.

Implicit Types (env : Env) (fs : FS) (t k target : Task).

Lemma complete_grows t fs fs' :
  grows fs fs' → complete t fs = true → complete t fs' = true.
Proof. apply grows_path_exists. Qed.

(** Only the target itself can be a clean stage: every task before another
    in a resolved order is one of the first four stages. *)
Lemma resolve_before_stage target before k after :
  resolve target = before ++ k :: after →
  ∀ t, t ∈ before → stage t < 4.
Proof.
  intros Heq.
  assert (Hall : Forall (λ t, stage t < 4) (removelast (resolve target))).
  { destruct target; cbn; repeat constructor. }
  rewrite Heq, removelast_app in Hall by done.
  apply Forall_app in Hall as [Hall _].
  by apply Forall_forall.
Qed.

(** After a part of a run in which the first four stages only were taken
    and none failed, nothing has been removed and each of the tasks is
    complete. *)
Lemma run_order_success_complete env order fs fs' events :
  (∀ t, t ∈ order → stage t < 4) →
  run_order complete (execute env) order fs = (None, fs', events) →
  grows fs fs' ∧ ∀ t, t ∈ order → complete t fs' = true.
Proof.
  revert fs events. induction order as [|t order IH]; intros fs events Hst; simpl.
  { intros [= <- _]. split; [apply grows_refl|]. by intros t ?%elem_of_nil. }
  assert (Hst' : ∀ t', t' ∈ order → stage t' < 4)
    by (intros; apply Hst; by right).
  destruct (complete t fs) eqn:Hc.
  - destruct (run_order complete (execute env) order fs)
      as [[r fs1] events1] eqn:Hrun.
    intros [= -> -> <-].
    destruct (IH _ _ Hst' Hrun) as [Hg Hall].
    split; [done|].
    intros t' [-> |Ht']%elem_of_cons; [by eapply complete_grows|by apply Hall].
  - destruct (execute env t fs) as [[[]|e0] fs0] eqn:Hexec; [|done].
    destruct (run_order complete (execute env) order fs0)
      as [[r fs1] events1] eqn:Hrun.
    intros [= -> -> <-].
    destruct (IH _ _ Hst' Hrun) as [Hg Hall].
    assert (Hg0 : grows fs fs0).
    { eapply monotone_execute; [|exact Hexec]. apply Hst. left. }
    split; [by eapply grows_trans|].
    intros t' [-> |Ht']%elem_of_cons; [|by apply Hall].
    eapply complete_grows; [done|]. by eapply execute_Ok_complete.
Qed.

End PipelineFacts.

(** The shape of a failed run of the pipeline. *)
Lemma run_failure env target k e fs fs1 (events : list Event) :
  run env target fs = (Some (k, e), fs1, events) →
  ∃ before after events_before fs_k,
    resolve target = before ++ k :: after
    ∧ events = events_before ++ [Failed k e]
    ∧ Forall2 (λ t ev, ev = Skipped t ∨ ev = Succeeded t) before events_before
    ∧ run_order complete (execute env) before fs = (None, fs_k, events_before)
    ∧ complete k fs_k = false
    ∧ execute env k fs_k = (Raise e, fs1)
    ∧ (∀ t, t ∈ after → t ∉ executed events)
    ∧ (k ∉ executed events_before)
    ∧ (stage k < 4 → ∀ t, t ∈ before → complete t fs1 = true).
Proof.
  intros Hrun. unfold run in Hrun.
  destruct (run_order_failure _ _ _ _ _ _ _ _ Hrun)
    as (before & after & evb & fs_k & Horder & -> & Hall & Hbefore & Hk & Hexec).
  exists before, after, evb, fs_k.
  do 6 (split; [done|]).
  destruct (resolve_topological target) as [[Hnd _] _].
  rewrite Horder in Hnd.
  apply NoDup_app in Hnd as (_ & Hdisj & [Hk_after _]%NoDup_cons).
  pose proof (executed_skipped_or_succeeded _ _ Hall) as Hsub.
  split; [|split].
  - intros t Ht. rewrite executed_app. simpl.
    intros [Hin%Hsub| ->%list_elem_of_singleton]%elem_of_app; [|done].
    apply (Hdisj t Hin). by right.
  - intros Hin%Hsub. apply (Hdisj k Hin). by left.
  - intros Hst t Ht.
    destruct (run_order_success_complete env before fs fs_k evb) as [_ Hcomplete];
      [by eapply resolve_before_stage|done|].
    eapply complete_grows; [|by apply Hcomplete].
    by eapply monotone_execute.
Qed.



(** ** Re-running after a failure *)

(** C2, as stated, fails: with a corrupt archive the unpack stage fails
    after [os.makedirs] has made [data_extracted], which is its output; in
    the run that follows it is complete and skipped, not re-executed, and the
    later stages run on the empty directory. *)
Lemma C2_failed_unpack_is_skipped :
  let target := CleanupTask "GSE68849" default_cleanup_dirs in
  let unpack := ExtractDatasetTask "GSE68849" "data_downloads" "data_extracted" in
  let first := run corrupt_archive_env target ∅ in
  let second := run sample_env target first.1.2 in
  first.1.1 = Some (unpack, ReadError)
  ∧ first.2 = [Succeeded (DownloadDatasetTask "GSE68849" "data_downloads");
               Failed unpack ReadError]
  ∧ second.1.1 = None
  ∧ second.2
    = [Skipped (DownloadDatasetTask "GSE68849" "data_downloads");
       Skipped unpack;
       Succeeded (ProcessDatasetTask "GSE68849" "data_extracted" "data_processed");
       Succeeded (TrimDatasetColumnsTask "GSE68849" "data_processed" "data_trimmed");
       Succeeded target]
  ∧ (unpack ∉ executed second.2)
  ∧ Os.walk_files "data_processed" second.1.2 = [].
Proof.
  repeat split; try vm_refl.
  intros Hin. vm_compute in Hin.
  repeat (apply elem_of_cons in Hin as [Hin|Hin]; [discriminate Hin|]).
  by apply elem_of_nil in Hin.
Qed.

(** C2, amended: when a stage [k] other than the clean stage fails after the
    stages before it were skipped or succeeded, a run that follows with the
    same target executes none of the stages before [k]; stage [k] itself is
    skipped if its output exists after the failure and executed again if it
    does not.  The output exists whenever [k] is the unpack, normalize or
    project stage and its [os.makedirs] had succeeded: these stages are not
    re-executed. *)
Theorem C2_rerun_resumes (env env' : Env) (target k : Task) (e : Error)
    (fs fs1 : FS) (events : list Event) :
  run env target fs = (Some (k, e), fs1, events) →
  stage k < 4 →
  ∃ before after fs_k,
    resolve target = before ++ k :: after
    ∧ execute env k fs_k = (Raise e, fs1)
    ∧ (∀ t, t ∈ before → complete t fs1 = true)
    ∧ (∀ t, t ∈ before → t ∉ executed (run env' target fs1).2)
    ∧ (complete k fs1 = true →
       ∃ rest, (run env' target fs1).2 = (Skipped <$> before) ++ Skipped k :: rest)
    ∧ (complete k fs1 = false →
       (∃ rest, (run env' target fs1).2
                = (Skipped <$> before) ++ Succeeded k :: rest)
       ∨ (∃ e', (run env' target fs1).2 = (Skipped <$> before) ++ [Failed k e']))
    ∧ (1 ≤ stage k →
       (∃ fs', Os.makedirs (output k) fs_k = (Ok tt, fs')) →
       complete k fs1 = true).
Proof.
  intros Hrun Hst.
  destruct (run_failure _ _ _ _ _ _ _ Hrun)
    as (before & after & evb & fs_k & Horder & _ & _ & _ & _ & Hexec & _ & _ & Hup).
  specialize (Hup Hst).
  exists before, after, fs_k.
  split; [done|]. split; [done|]. split; [done|].
  assert (Hevents : (run env' target fs1).2
                    = (Skipped <$> before)
                      ++ (run_order complete (execute env') (k :: after) fs1).2).
  { unfold run. rewrite Horder. by apply run_order_skips_prefix. }
  destruct (resolve_topological target) as [[Hnd _] _].
  rewrite Horder in Hnd. apply NoDup_app in Hnd as (_ & Hdisj & _).
  split; [|split; [|split]].
  - intros t Ht. rewrite Hevents, executed_app.
    intros [Hin|Hin]%elem_of_app.
    + rewrite executed_skipped in Hin. by apply elem_of_nil in Hin.
    + apply (Hdisj t Ht).
      eapply elem_of_sublist; [exact Hin|].
      apply (executed_sublist complete (execute env') (k :: after) fs1).
  - intros Hc. rewrite Hevents. simpl. rewrite Hc.
    destruct (run_order complete (execute env') after fs1) as [[r fs2] events2].
    by eexists.
  - intros Hc. rewrite Hevents. simpl. rewrite Hc.
    destruct (execute env' k fs1) as [[[]|e'] fs2].
    + destruct (run_order complete (execute env') after fs2) as [[r fs3] events3].
      left. by eexists.
    + right. by eexists.
  - intros Hst1 [fs' Hmk].
    by eapply makedirs_first_complete.
Qed.

Lemma C2_rerun_resumes_witness :
  let target := CleanupTask "GSE68849" default_cleanup_dirs in
  let k := ExtractDatasetTask "GSE68849" "data_downloads" "data_extracted" in
  let fs1 := (run corrupt_archive_env target ∅).1.2 in
  let events := [Succeeded (DownloadDatasetTask "GSE68849" "data_downloads");
                 Failed k ReadError] in
  run corrupt_archive_env target ∅ = (Some (k, ReadError), fs1, events)
  ∧ stage k < 4
  ∧ ∃ before after fs_k,
      resolve target = before ++ k :: after
      ∧ execute corrupt_archive_env k fs_k = (Raise ReadError, fs1)
      ∧ (∀ t, t ∈ before → complete t fs1 = true)
      ∧ (∀ t, t ∈ before → t ∉ executed (run sample_env target fs1).2)
      ∧ (complete k fs1 = true →
         ∃ rest, (run sample_env target fs1).2
                 = (Skipped <$> before) ++ Skipped k :: rest)
      ∧ (complete k fs1 = false →
         (∃ rest, (run sample_env target fs1).2
                  = (Skipped <$> before) ++ Succeeded k :: rest)
         ∨ (∃ e', (run sample_env target fs1).2
                  = (Skipped <$> before) ++ [Failed k e']))
      ∧ (1 ≤ stage k →
         (∃ fs', Os.makedirs (output k) fs_k = (Ok tt, fs')) →
         complete k fs1 = true).
Proof.
  intros target k fs1 events.
  assert (Hrun : run corrupt_archive_env target ∅
                 = (Some (k, ReadError), fs1, events)) by vm_refl.
  assert (Hst : stage k < 4) by (simpl; lia).
  split; [exact Hrun|]. split; [exact Hst|].
  exact (C2_rerun_resumes corrupt_archive_env sample_env _ _ _ _ _ _ Hrun Hst).
Defined.

(** ** Running twice *)

Section CleanupFrame.

Implicit Types (fs : FS) (k : list string) (d p : string) (dirs : list string).


(** [shutil.rmtree(p)] creates and changes nothing. *)
Lemma rmtree_shrinks p fs r fs' k n :
  Os.rmtree p fs = (r, fs') → fs' !! k = Some n → fs !! k = Some n.
Proof.
  unfold Os.rmtree. intros Hrun.
  case_decide; [by injection Hrun as _ <-|].
  destruct (Os.look fs (Os.components p)) as [[?|]|];
    try (by injection Hrun as _ <-).
  destruct (Os.components p) as [|c q] eqn:Hq; injection Hrun as _ <-;
    rewrite lookup_remove_tree; by case_decide.
Qed.


Lemma cleanup_loop_shrinks dirs fs r fs' k n :
  cleanup_loop dirs fs = (r, fs') → fs' !! k = Some n → fs !! k = Some n.
Proof.
  revert fs. induction dirs as [|d dirs IH]; intros fs.
  { by intros [= _ <-]. }
  unfold cleanup_loop. simpl. unfold bind. intros Hrun Hk.
  destruct (Os.path_exists fs d).
  - destruct (Os.rmtree d fs) as [[[]|e] fs0] eqn:Hrm.
    + eapply rmtree_shrinks; [done|]. by eapply IH.
    + injection Hrun as _ <-. by eapply rmtree_shrinks.
  - by eapply IH.
Qed.

(** What [CleanupTask.run] leaves, when it ends normally: the sentinel, and
    of the rest nothing that was not there. *)
Lemma CleanupTask_run_Ok dirs fs fs' :
  CleanupTask_run dirs fs = (Ok tt, fs') →
  ∃ fs1,
    cleanup_loop dirs fs = (Ok tt, fs1)
    ∧ fs' = <[Os.components cleanup_status := File "Cleanup completed."]> fs1.
Proof.
  unfold CleanupTask_run.
  intros ([] & fs1 & Hloop & Hwrite)%bind_Ok.
  exists fs1. split; [done|].
  by apply write_file_Ok in Hwrite as (_ & _ & _ & _ & ->).
Qed.


End CleanupFrame.





(** ** The completion marker *)

(** C4, as stated, fails: the sentinel does not tell datasets apart.  After
    the run for [GSE68849], in which no task of another dataset was executed,
    the clean stage of [GSE68850] has the same output and is complete. *)
Lemma C4_sentinel_not_per_dataset :
  let first := run sample_env (CleanupTask "GSE68849" default_cleanup_dirs) ∅ in
  first.1.1 = None
  ∧ executed first.2 = resolve (CleanupTask "GSE68849" default_cleanup_dirs)
  ∧ output (CleanupTask "GSE68850" default_cleanup_dirs)
    = output (CleanupTask "GSE68849" default_cleanup_dirs)
  ∧ complete (CleanupTask "GSE68850" default_cleanup_dirs) first.1.2 = true
  ∧ ¬ (∀ n n' dirs, output (CleanupTask n dirs) = output (CleanupTask n' dirs)
                    → n = n').
Proof.
  repeat split; try vm_refl.
  intros Hinj. by specialize (Hinj "GSE68849" "GSE68850" [] eq_refl).
Qed.

(** C4, amended: when the clean stage ends normally it has written one file,
    the sentinel [cleanup_status.done], which is its own output: every other
    file it leaves was there before, unchanged.  The path of the sentinel is
    the same for every dataset name and every cleanup list, so its existence
    makes the clean stage complete for each of them. *)
Theorem C4_sentinel_marks_clean_stage (n : string) (cleanup_dirs : list string)
    (fs fs' : FS) :
  CleanupTask_run cleanup_dirs fs = (Ok tt, fs') →
  output (CleanupTask n cleanup_dirs) = cleanup_status
  ∧ fs' !! Os.components cleanup_status = Some (File "Cleanup completed.")
  ∧ (∀ k c, fs' !! k = Some (File c) →
       k = Os.components cleanup_status ∨ fs !! k = Some (File c))
  ∧ (∀ n' cleanup_dirs', complete (CleanupTask n' cleanup_dirs') fs' = true).
Proof.
  intros Hrun. split; [reflexivity|].
  pose proof Hrun as (fs1 & Hloop & ->)%CleanupTask_run_Ok.
  split; [apply lookup_insert_eq|]. split.
  - intros k c Hk.
    destruct (decide (k = Os.components cleanup_status)) as [->|Hne]; [by left|].
    right. rewrite lookup_insert_ne in Hk by done.
    by eapply cleanup_loop_shrinks.
  - intros n' dirs'. unfold complete. simpl.
    apply path_exists_true. split; [done|].
    change (Os.components cleanup_status) with ["cleanup_status.done"].
    simpl. rewrite lookup_insert_eq. by eexists.
Qed.

Lemma C4_sentinel_marks_clean_stage_witness :
  let fs : FS :=
    <[ ["data_downloads"; "GSE68849_RAW.tar"] := File "<archive>" ]>
      (<[ ["data_downloads"] := Dir ]> ∅) in
  let fs' : FS := <[ ["cleanup_status.done"] := File "Cleanup completed." ]> ∅ in
  CleanupTask_run default_cleanup_dirs fs = (Ok tt, fs')
  ∧ output (CleanupTask "GSE68849" default_cleanup_dirs) = cleanup_status
  ∧ fs' !! Os.components cleanup_status = Some (File "Cleanup completed.")
  ∧ (∀ k c, fs' !! k = Some (File c) →
       k = Os.components cleanup_status ∨ fs !! k = Some (File c))
  ∧ (∀ n' cleanup_dirs', complete (CleanupTask n' cleanup_dirs') fs' = true).
Proof.
  intros fs fs'.
  assert (Hrun : CleanupTask_run default_cleanup_dirs fs = (Ok tt, fs'))
    by vm_refl.
  split; [exact Hrun|].
  exact (C4_sentinel_marks_clean_stage "GSE68849" default_cleanup_dirs fs fs' Hrun).
Defined.

(** * Further properties of the stage bodies *)

(** ** What the calls leave unchanged *)

Section FrameFacts.

Implicit Types (fs : FS) (k : list string) (p c : string).

Lemma read_file_unchanged p fs r fs' :
  Os.read_file p fs = (r, fs') → fs' = fs.
Proof.
  unfold Os.read_file. case_decide; [by intros [= _ <-]|].
  destruct (Os.look fs (Os.components p)) as [[?|]|]; by intros [= _ <-].
Qed.

Lemma lift_unchanged {A} (o : option A) e fs r fs' :
  lift o e fs = (r, fs') → fs' = fs.
Proof. destruct o; by intros [= _ <-]. Qed.

Lemma write_file_Raise p c fs e fs' :
  Os.write_file p c fs = (Raise e, fs') → fs' = fs.
Proof.
  unfold Os.write_file. case_decide; [by intros [= _ <-]|].
  destruct (Os.look fs (Os.components p)) as [[?|]|];
    try (by intros [= _ <-]);
    destruct (Os.look fs (removelast (Os.components p))) as [[?|]|];
    by intros [= _ <-].
Qed.


(** [os.makedirs] touches nothing but the missing directories on the way to
    its target, and what exists stays as it is. *)
Lemma mkdirs_from_frame above todo fs r fs' k :
  Os.mkdirs_from above todo fs = (r, fs') →
  ¬ k `prefix_of` above ++ todo →
  fs' !! k = fs !! k.
Proof.
  revert above fs. induction todo as [|c rest IH]; intros above fs; simpl.
  { by intros [= _ <-]. }
  rewrite (cons_middle c above rest), app_assoc.
  intros Hrun Hk.
  destruct (fs !! (above ++ [c])) as [[?|]|] eqn:Hq.
  - by injection Hrun as _ <-.
  - by eapply IH.
  - rewrite (IH _ _ Hrun Hk). apply lookup_insert_ne.
    intros <-. apply Hk. by apply prefix_app_r.
Qed.

Lemma mkdirs_from_keeps above todo fs r fs' k n :
  Os.mkdirs_from above todo fs = (r, fs') →
  fs !! k = Some n → fs' !! k = Some n.
Proof.
  revert above fs. induction todo as [|c rest IH]; intros above fs; simpl.
  { by intros [= _ <-]. }
  intros Hrun Hk.
  destruct (fs !! (above ++ [c])) as [[?|]|] eqn:Hq.
  - by injection Hrun as _ <-.
  - by eapply IH.
  - eapply IH; [done|]. rewrite lookup_insert_ne; [done|].
    intros <-. congruence.
Qed.


(** A loop whose body does nothing on every element does nothing. *)
Lemma for_each_skip {A} (l : list A) (body : A → M unit) fs :
  (∀ x, x ∈ l → body x = ret tt) → for_each l body fs = (Ok tt, fs).
Proof.
  induction l as [|x l IH]; intros Hbody; [done|].
  simpl. unfold bind. rewrite (Hbody x) by left. simpl.
  apply IH. intros y Hy. apply Hbody. by right.
Qed.

End FrameFacts.

(** ** The contract of the tasks *)

(** X1: every [run] body, when it ends normally, has produced its output: the
    path of its [output()] exists, so the task is complete. *)
Theorem run_ok_output_exists (env : Env) (t : Task) (fs fs' : FS) :
  execute env t fs = (Ok tt, fs') →
  Os.path_exists fs' (output t) = true.
Proof. apply execute_Ok_complete. Qed.

Lemma run_ok_output_exists_witness :
  let t := DownloadDatasetTask "GSE68849" "data_downloads" in
  let fs' : FS :=
    <[ ["data_downloads"; "GSE68849_RAW.tar"] := File "<archive>" ]>
      (<[ ["data_downloads"] := Dir ]> ∅) in
  execute sample_env t ∅ = (Ok tt, fs')
  ∧ Os.path_exists fs' (output t) = true.
Proof.
  intros t fs'.
  assert (Hrun : execute sample_env t ∅ = (Ok tt, fs')) by vm_refl.
  split; [exact Hrun|].
  exact (run_ok_output_exists sample_env t ∅ fs' Hrun).
Defined.

(** X2: the acquire, unpack, normalize and project stages remove nothing,
    whether their [run] ends normally or raises: every path that existed
    before still exists afterwards. *)
Theorem stages_before_clean_remove_nothing (env : Env) (t : Task)
    (fs fs' : FS) (r : Outcome unit) :
  stage t < 4 →
  execute env t fs = (r, fs') →
  ∀ p, Os.path_exists fs p = true → Os.path_exists fs' p = true.
Proof.
  intros Hst Hrun p. apply grows_path_exists.
  by eapply monotone_execute.
Qed.

Lemma stages_before_clean_remove_nothing_witness :
  let t := ExtractDatasetTask "GSE68849" "data_downloads" "data_extracted" in
  let fs : FS :=
    <[ ["data_downloads"; "GSE68849_RAW.tar"] := File "<archive>" ]>
      (<[ ["data_downloads"] := Dir ]> ∅) in
  let fs' : FS := <[ ["data_extracted"] := Dir ]> fs in
  stage t < 4
  ∧ execute corrupt_archive_env t fs = (Raise ReadError, fs')
  ∧ ∀ p, Os.path_exists fs p = true → Os.path_exists fs' p = true.
Proof.
  intros t fs fs'.
  assert (Hst : stage t < 4) by (simpl; lia).
  assert (Hrun : execute corrupt_archive_env t fs = (Raise ReadError, fs'))
    by vm_refl.
  split; [exact Hst|]. split; [exact Hrun|].
  exact (stages_before_clean_remove_nothing corrupt_archive_env t fs fs' _
           Hst Hrun).
Defined.

(** ** The clean stage: what it leaves alone, and when it fails *)





(** ** The normalize and project stages: what their loops pass over *)

Section WalkFacts.

Implicit Types (fs : FS) (top : string).

(** [os.walk] of a path that is no directory yields nothing. *)
Lemma walk_files_not_dir top fs :
  Os.look fs (Os.components top) ≠ Some Dir → Os.walk_files top fs = [].
Proof.
  unfold Os.walk_files. case_decide; [done|].
  by destruct (Os.look fs (Os.components top)) as [[?|]|].
Qed.

Lemma walk_files_absent top fs :
  Os.path_exists fs top = false → Os.walk_files top fs = [].
Proof.
  intros [->|[Hk Hnone]]%path_exists_false; [done|].
  apply walk_files_not_dir. by rewrite look_nonroot, Hnone.
Qed.

End WalkFacts.

(** X5: when [os.walk(extract_dir)] lists no file whose name ends in [.txt.gz],
    [ProcessDatasetTask.run] makes [processed_dir] and does nothing else:
    files with other names are passed over without an error. *)
Theorem process_passes_over_other_files (env : Env)
    (extract_dir processed_dir : string) (fs fs1 : FS) :
  Os.makedirs processed_dir fs = (Ok tt, fs1) →
  (∀ rf, rf ∈ Os.walk_files extract_dir fs1 →
         PyStr.endswith rf.2 ".txt.gz" = false) →
  ProcessDatasetTask_run env extract_dir processed_dir fs = (Ok tt, fs1).
Proof.
  intros Hmk Hnone. unfold ProcessDatasetTask_run, bind. rewrite Hmk.
  apply for_each_skip. intros rf Hrf. by rewrite Hnone.
Qed.

Lemma process_passes_over_other_files_witness :
  let fs : FS :=
    <[ ["data_extracted"; "README.txt"] := File "notes" ]>
      (<[ ["data_extracted"] := Dir ]> ∅) in
  let fs1 : FS := <[ ["data_processed"] := Dir ]> fs in
  Os.makedirs "data_processed" fs = (Ok tt, fs1)
  ∧ (∀ rf, rf ∈ Os.walk_files "data_extracted" fs1 →
           PyStr.endswith rf.2 ".txt.gz" = false)
  ∧ ProcessDatasetTask_run sample_env "data_extracted" "data_processed" fs
    = (Ok tt, fs1).
Proof.
  intros fs fs1.
  assert (Hmk : Os.makedirs "data_processed" fs = (Ok tt, fs1)) by vm_refl.
  assert (Hnone : ∀ rf, rf ∈ Os.walk_files "data_extracted" fs1 →
                    PyStr.endswith rf.2 ".txt.gz" = false).
  { assert (Hwalk : Os.walk_files "data_extracted" fs1
                    = [("data_extracted", "README.txt")]) by vm_refl.
    rewrite Hwalk. intros rf ->%list_elem_of_singleton. reflexivity. }
  split; [exact Hmk|]. split; [exact Hnone|].
  exact (process_passes_over_other_files sample_env _ _ fs fs1 Hmk Hnone).
Defined.

(** X6: when [extract_dir] does not exist once [processed_dir] is made, the
    normalize stage still ends normally, with an empty [processed_dir] as its
    output: a missing input directory is not an error. *)
Theorem process_missing_input_succeeds (env : Env)
    (extract_dir processed_dir : string) (fs fs1 : FS) :
  Os.makedirs processed_dir fs = (Ok tt, fs1) →
  Os.path_exists fs1 extract_dir = false →
  ProcessDatasetTask_run env extract_dir processed_dir fs = (Ok tt, fs1)
  ∧ Os.path_exists fs1 processed_dir = true.
Proof.
  intros Hmk Habs. split; [|by eapply makedirs_exists].
  unfold ProcessDatasetTask_run, bind. rewrite Hmk.
  by rewrite walk_files_absent.
Qed.

Lemma process_missing_input_succeeds_witness :
  let fs1 : FS := <[ ["data_processed"] := Dir ]> ∅ in
  Os.makedirs "data_processed" ∅ = (Ok tt, fs1)
  ∧ Os.path_exists fs1 "my_extracted" = false
  ∧ ProcessDatasetTask_run sample_env "my_extracted" "data_processed" ∅
    = (Ok tt, fs1)
  ∧ Os.path_exists fs1 "data_processed" = true.
Proof.
  intros fs1.
  assert (Hmk : Os.makedirs "data_processed" ∅ = (Ok tt, fs1)) by vm_refl.
  assert (Habs : Os.path_exists fs1 "my_extracted" = false) by vm_refl.
  split; [exact Hmk|]. split; [exact Habs|].
  exact (process_missing_input_succeeds sample_env _ _ ∅ fs1 Hmk Habs).
Defined.

(** X7: the same for the project stage: when [os.walk(processed_dir)] lists no
    file whose name ends in [_processed.txt] (in particular when
    [processed_dir] does not exist), [TrimDatasetColumnsTask.run] makes
    [trimmed_dir], reads no table and ends normally. *)
Theorem trim_passes_over_other_files (env : Env)
    (processed_dir trimmed_dir : string) (fs fs1 : FS) :
  Os.makedirs trimmed_dir fs = (Ok tt, fs1) →
  (Os.path_exists fs1 processed_dir = false
   ∨ ∀ rf, rf ∈ Os.walk_files processed_dir fs1 →
           PyStr.endswith rf.2 "_processed.txt" = false) →
  TrimDatasetColumnsTask_run env processed_dir trimmed_dir fs = (Ok tt, fs1).
Proof.
  intros Hmk Hnone. unfold TrimDatasetColumnsTask_run, bind. rewrite Hmk.
  destruct Hnone as [Habs|Hnone].
  - by rewrite walk_files_absent.
  - apply for_each_skip. intros rf Hrf. by rewrite Hnone.
Qed.

Lemma trim_passes_over_other_files_witness :
  let fs1 : FS := <[ ["data_trimmed"] := Dir ]> ∅ in
  Os.makedirs "data_trimmed" ∅ = (Ok tt, fs1)
  ∧ (Os.path_exists fs1 "my_processed" = false
     ∨ ∀ rf, rf ∈ Os.walk_files "my_processed" fs1 →
             PyStr.endswith rf.2 "_processed.txt" = false)
  ∧ TrimDatasetColumnsTask_run sample_env "my_processed" "data_trimmed" ∅
    = (Ok tt, fs1).
Proof.
  intros fs1.
  assert (Hmk : Os.makedirs "data_trimmed" ∅ = (Ok tt, fs1)) by vm_refl.
  assert (Habs : Os.path_exists fs1 "my_processed" = false
                 ∨ ∀ rf, rf ∈ Os.walk_files "my_processed" fs1 →
                         PyStr.endswith rf.2 "_processed.txt" = false).
  { left. vm_refl. }
  split; [exact Hmk|]. split; [exact Habs|].
  exact (trim_passes_over_other_files sample_env _ _ ∅ fs1 Hmk Habs).
Defined.

(** ** Single files: what is written, and what a failure leaves *)

(** X8: when [_decompress_file] ends normally, the file it was given is a
    regular file; the text [gzip] reads from it is what the output file
    holds, and the output file is the only change. *)
Theorem decompress_file_writes_text (env : Env) (processed_dir file_path : string)
    (fs fs' : FS) :
  decompress_file env processed_dir file_path fs = (Ok tt, fs') →
  ∃ compressed content,
    Os.look fs (Os.components file_path) = Some (File compressed)
    ∧ gunzip env compressed = Some content
    ∧ fs' = <[Os.components (decompress_output_file_path processed_dir file_path)
              := File content]> fs.
Proof.
  unfold decompress_file.
  intros (compressed & fs1 & (_ & Hread & ->)%read_file_Ok & Hrest)%bind_Ok.
  apply bind_Ok in Hrest as (content & fs2 & [Hgz ->]%lift_Ok & Hwrite).
  exists compressed, content. split; [done|]. split; [done|].
  by apply write_file_Ok in Hwrite as (_ & _ & _ & _ & ->).
Qed.

Lemma decompress_file_writes_text_witness :
  let fs : FS :=
    <[ ["data_processed"] := Dir ]>
      (<[ ["data_extracted"; "GPL10558.txt.gz"] := File "<compressed>" ]>
         (<[ ["data_extracted"] := Dir ]> ∅)) in
  let fs' : FS :=
    <[ ["data_processed"; "GPL10558.txt_processed.txt"] := File "<table>" ]> fs in
  decompress_file sample_env "data_processed" "data_extracted/GPL10558.txt.gz" fs
  = (Ok tt, fs')
  ∧ ∃ compressed content,
      Os.look fs (Os.components "data_extracted/GPL10558.txt.gz")
      = Some (File compressed)
      ∧ gunzip sample_env compressed = Some content
      ∧ fs' = <[Os.components
                  (decompress_output_file_path "data_processed"
                     "data_extracted/GPL10558.txt.gz")
                := File content]> fs.
Proof.
  intros fs fs'.
  assert (Hrun : decompress_file sample_env "data_processed"
                   "data_extracted/GPL10558.txt.gz" fs = (Ok tt, fs'))
    by vm_refl.
  split; [exact Hrun|].
  exact (decompress_file_writes_text sample_env _ _ fs fs' Hrun).
Defined.

(** X9: when [_decompress_file] or [_trim_columns] raises (the file cannot be
    read, is no gzip file or no table, or the output cannot be written),
    nothing has been written: the file system is as it was. *)
Theorem file_transforms_fail_without_effect (env : Env)
    (out_dir file_path : string) (e : Error) (fs fs' : FS) :
  decompress_file env out_dir file_path fs = (Raise e, fs')
  ∨ trim_columns env out_dir file_path columns_to_remove fs = (Raise e, fs') →
  fs' = fs.
Proof.
  unfold decompress_file, trim_columns. intros [Hrun|Hrun].
  - apply bind_Raise in Hrun
      as [Hread|(compressed & fs1 & Hread%read_file_unchanged & Hrun)];
      [by eapply read_file_unchanged|subst fs1].
    apply bind_Raise in Hrun
      as [Hgz|(content & fs1 & Hgz%lift_unchanged & Hwrite)];
      [by eapply lift_unchanged|subst fs1].
    by eapply write_file_Raise.
  - apply bind_Raise in Hrun
      as [Hread|(text & fs1 & Hread%read_file_unchanged & Hrun)];
      [by eapply read_file_unchanged|subst fs1].
    apply bind_Raise in Hrun
      as [Hcsv|(df & fs1 & Hcsv%lift_unchanged & Hwrite)];
      [by eapply lift_unchanged|subst fs1].
    by eapply write_file_Raise.
Qed.

Lemma file_transforms_fail_without_effect_witness :
  let fs : FS :=
    <[ ["data_processed"] := Dir ]>
      (<[ ["data_extracted"; "broken.txt.gz"] := File "not gzip" ]>
         (<[ ["data_extracted"] := Dir ]> ∅)) in
  (decompress_file sample_env "data_processed" "data_extracted/broken.txt.gz" fs
   = (Raise BadGzipFile, fs)
   ∨ trim_columns sample_env "data_processed" "data_extracted/broken.txt.gz"
       columns_to_remove fs = (Raise BadGzipFile, fs))
  ∧ fs = fs.
Proof.
  intros fs.
  assert (Hrun : decompress_file sample_env "data_processed"
                   "data_extracted/broken.txt.gz" fs = (Raise BadGzipFile, fs)
                 ∨ trim_columns sample_env "data_processed"
                     "data_extracted/broken.txt.gz" columns_to_remove fs
                   = (Raise BadGzipFile, fs)).
  { left. vm_refl. }
  split; [exact Hrun|].
  exact (file_transforms_fail_without_effect sample_env _ _ _ fs fs Hrun).
Defined.



(** ** The names of the output files *)

Section ReplaceFacts.

Implicit Types (s t old new : string) (c : ascii).

Lemma app_empty_r s : s +:+ "" = s.
Proof. induction s as [|a s IH]; [done|]. by rewrite app_cons, IH. Qed.

Lemma replace_from_exhausted old new skip s :
  String.length s ≤ skip → PyStr.replace_from old new skip s = "".
Proof.
  revert skip. induction s as [|a s IH]; intros skip Hlen; [done|].
  simpl in *. destruct skip as [|k]; [lia|]. apply IH. lia.
Qed.

Lemma startswith_length s p :
  PyStr.startswith s p = true → String.length p ≤ String.length s.
Proof.
  revert s. induction p as [|b p IH]; intros s; [simpl; lia|].
  destruct s as [|a s]; [done|]. simpl.
  destruct (Ascii.eqb a b); [|done]. intros Hs%IH. lia.
Qed.

Lemma startswith_app_l s t p :
  PyStr.startswith s p = true → PyStr.startswith (s +:+ t) p = true.
Proof.
  revert s. induction p as [|b p IH]; intros s.
  { intros _. by destruct (s +:+ t). }
  destruct s as [|a s]; [done|]. rewrite app_cons. simpl.
  destruct (Ascii.eqb a b); [apply IH|done].
Qed.

Lemma startswith_refl p : PyStr.startswith p p = true.
Proof. induction p as [|b p IH]; [done|]. simpl. by rewrite Ascii.eqb_refl. Qed.

(** [str.replace] replaces an occurrence of [old] at the end of the text,
    when [old] begins with a character that it has only once (so that no
    occurrence overlaps another). *)
Lemma replace_from_app_old c old' new s skip :
  PyStr.contains_char c old' = false →
  skip ≤ String.length s →
  PyStr.replace_from (String c old') new skip (s +:+ String c old')
  = PyStr.replace_from (String c old') new skip s +:+ new.
Proof.
  intros Hc. revert skip. induction s as [|a s IH]; intros skip Hskip.
  { simpl in Hskip. assert (skip = 0) as -> by lia.
    rewrite app_empty_l. cbn [PyStr.replace_from].
    rewrite startswith_refl.
    rewrite replace_from_exhausted by (simpl; lia).
    by rewrite app_empty_r. }
  rewrite app_cons. destruct skip as [|k].
  - cbn [PyStr.replace_from].
    destruct (PyStr.startswith (String a s) (String c old')) eqn:Hst.
    + assert (PyStr.startswith (String a (s +:+ String c old')) (String c old')
              = true) as ->.
      { rewrite <- app_cons. by apply startswith_app_l. }
      apply startswith_length in Hst. simpl in Hst.
      rewrite IH by (simpl; lia). by rewrite app_assoc_str.
    + assert (PyStr.startswith (String a (s +:+ String c old')) (String c old')
              = false) as ->.
      { simpl in *. destruct (Ascii.eqb a c); [|done].
        by apply startswith_app_fresh. }
      rewrite IH by lia. by rewrite app_cons.
  - cbn [PyStr.replace_from]. apply IH. simpl in Hskip. lia.
Qed.

Lemma endswith_app_r r suf : PyStr.endswith (r +:+ suf) suf = true.
Proof.
  induction r as [|a r IH].
  - rewrite app_empty_l. destruct suf as [|b suf]; cbn [PyStr.endswith];
      by rewrite String.eqb_refl.
  - rewrite app_cons. cbn [PyStr.endswith].
    destruct (String.eqb (String a (r +:+ suf)) suf); [done|exact IH].
Qed.

Lemma contains_char_replace_from c old new skip s :
  PyStr.contains_char c s = false →
  PyStr.contains_char c new = false →
  PyStr.contains_char c (PyStr.replace_from old new skip s) = false.
Proof.
  intros Hs Hnew. revert skip. induction s as [|a s IH]; intros skip; [done|].
  simpl in Hs. apply orb_false_elim in Hs as [Ha Hs].
  cbn [PyStr.replace_from]. destruct skip as [|k]; [|by apply IH].
  destruct (PyStr.startswith (String a s) old).
  - rewrite contains_char_app, Hnew. by apply IH.
  - simpl. rewrite Ha. by apply IH.
Qed.

End ReplaceFacts.

Example replace_trailing_overlap :
  PyStr.replace "aaa" "aa" "b" = "ba"
  ∧ PyStr.endswith (PyStr.replace "aaa" "aa" "b") "b" = false.
Proof. split; reflexivity. Qed.

(** X11: every file that the loop of the normalize stage accepts (a name that
    ends in [.txt.gz]) is written under a name that ends in [_processed.txt],
    directly in [processed_dir]: a name that the loop of the project stage
    accepts. *)
Theorem normalize_output_passes_project_filter
    (root file processed_dir : string) :
  PyStr.contains_char OsPath.sep file = false →
  PyStr.endswith file ".txt.gz" = true →
  let out := decompress_output_file_path processed_dir (OsPath.join root file) in
  out = OsPath.join processed_dir (PyStr.replace file ".gz" "_processed.txt")
  ∧ OsPath.basename out = PyStr.replace file ".gz" "_processed.txt"
  ∧ PyStr.endswith (OsPath.basename out) "_processed.txt" = true.
Proof.
  intros Hslash [r ->]%endswith_app out.
  assert (Hout : out = OsPath.join processed_dir
                         (PyStr.replace (r +:+ ".txt.gz") ".gz" "_processed.txt")).
  { unfold out, decompress_output_file_path. by rewrite basename_join. }
  assert (Hbase : OsPath.basename out
                  = PyStr.replace (r +:+ ".txt.gz") ".gz" "_processed.txt").
  { rewrite Hout. apply basename_join. unfold PyStr.replace.
    by apply contains_char_replace_from. }
  split; [done|]. split; [done|].
  rewrite Hbase. unfold PyStr.replace.
  change (r +:+ ".txt.gz") with (r +:+ (".txt" +:+ ".gz")).
  rewrite <- app_assoc_str.
  rewrite (replace_from_app_old "." "gz") by (done || lia).
  apply endswith_app_r.
Qed.

Lemma normalize_output_passes_project_filter_witness :
  PyStr.contains_char OsPath.sep "a.gz.backup.txt.gz" = false
  ∧ PyStr.endswith "a.gz.backup.txt.gz" ".txt.gz" = true
  ∧ let out :=
      decompress_output_file_path "data_processed"
        (OsPath.join "data_extracted/sub" "a.gz.backup.txt.gz") in
    out = OsPath.join "data_processed"
            (PyStr.replace "a.gz.backup.txt.gz" ".gz" "_processed.txt")
    ∧ OsPath.basename out
      = PyStr.replace "a.gz.backup.txt.gz" ".gz" "_processed.txt"
    ∧ PyStr.endswith (OsPath.basename out) "_processed.txt" = true.
Proof.
  split; [reflexivity|]. split; [reflexivity|].
  apply (normalize_output_passes_project_filter "data_extracted/sub"
           "a.gz.backup.txt.gz" "data_processed"); reflexivity.
Defined.

(** X12: every file that the loop of the project stage accepts (a name that ends
    in [_processed.txt]) is written under a name that ends in
    [_trimmed.txt], directly in [trimmed_dir]. *)
Theorem project_output_name_trimmed (root file trimmed_dir : string) :
  PyStr.contains_char OsPath.sep file = false →
  PyStr.endswith file "_processed.txt" = true →
  let out := trim_output_file_path trimmed_dir (OsPath.join root file) in
  out = OsPath.join trimmed_dir (PyStr.replace file "_processed.txt" "_trimmed.txt")
  ∧ OsPath.basename out = PyStr.replace file "_processed.txt" "_trimmed.txt"
  ∧ PyStr.endswith (OsPath.basename out) "_trimmed.txt" = true.
Proof.
  intros Hslash [r ->]%endswith_app out.
  assert (Hout : out = OsPath.join trimmed_dir
                         (PyStr.replace (r +:+ "_processed.txt")
                            "_processed.txt" "_trimmed.txt")).
  { unfold out, trim_output_file_path. by rewrite basename_join. }
  assert (Hbase : OsPath.basename out
                  = PyStr.replace (r +:+ "_processed.txt")
                      "_processed.txt" "_trimmed.txt").
  { rewrite Hout. apply basename_join. unfold PyStr.replace.
    by apply contains_char_replace_from. }
  split; [done|]. split; [done|].
  rewrite Hbase. unfold PyStr.replace.
  rewrite (replace_from_app_old "_" "processed.txt") by (done || lia).
  apply endswith_app_r.
Qed.

Lemma project_output_name_trimmed_witness :
  PyStr.contains_char OsPath.sep "GPL10558.txt_processed.txt" = false
  ∧ PyStr.endswith "GPL10558.txt_processed.txt" "_processed.txt" = true
  ∧ let out :=
      trim_output_file_path "data_trimmed"
        (OsPath.join "data_processed" "GPL10558.txt_processed.txt") in
    out = OsPath.join "data_trimmed"
            (PyStr.replace "GPL10558.txt_processed.txt"
               "_processed.txt" "_trimmed.txt")
    ∧ OsPath.basename out
      = PyStr.replace "GPL10558.txt_processed.txt" "_processed.txt" "_trimmed.txt"
    ∧ PyStr.endswith (OsPath.basename out) "_trimmed.txt" = true.
Proof.
  split; [reflexivity|]. split; [reflexivity|].
  apply (project_output_name_trimmed "data_processed"
           "GPL10558.txt_processed.txt" "data_trimmed"); reflexivity.
Defined.

(** X13: the output path of a file depends on its name only, not on the
    directory in which [os.walk] has found it: the normalize and the project
    stage write files of the same name from different subdirectories to one
    and the same path. *)
Theorem output_path_ignores_directory (root1 root2 file out_dir : string) :
  PyStr.contains_char OsPath.sep file = false →
  decompress_output_file_path out_dir (OsPath.join root1 file)
  = decompress_output_file_path out_dir (OsPath.join root2 file)
  ∧ trim_output_file_path out_dir (OsPath.join root1 file)
    = trim_output_file_path out_dir (OsPath.join root2 file).
Proof.
  intros Hslash. unfold decompress_output_file_path, trim_output_file_path.
  by rewrite !basename_join.
Qed.

Lemma output_path_ignores_directory_witness :
  PyStr.contains_char OsPath.sep "a.txt.gz" = false
  ∧ decompress_output_file_path "data_processed"
      (OsPath.join "data_extracted/x" "a.txt.gz")
    = decompress_output_file_path "data_processed"
        (OsPath.join "data_extracted/y" "a.txt.gz")
  ∧ trim_output_file_path "data_processed"
      (OsPath.join "data_extracted/x" "a.txt.gz")
    = trim_output_file_path "data_processed"
        (OsPath.join "data_extracted/y" "a.txt.gz").
Proof.
  split; [reflexivity|].
  apply (output_path_ignores_directory "data_extracted/x" "data_extracted/y"
           "a.txt.gz" "data_processed"); reflexivity.
Defined.

(** ** Where the stages write *)

Section ComponentsFacts.

Implicit Types (a b p s : string).

Lemma split_nonempty c s : PyStr.split c s ≠ [].
Proof.
  destruct s as [|a s]; [done|]. simpl.
  destruct (Ascii.eqb a c); [done|]. by destruct (PyStr.split c s).
Qed.

Lemma split_app_sep c a b :
  PyStr.split c (a +:+ String c b) = PyStr.split c a ++ PyStr.split c b.
Proof.
  induction a as [|x a IH].
  - rewrite app_empty_l. simpl. by rewrite Ascii.eqb_refl.
  - rewrite app_cons. simpl. destruct (Ascii.eqb x c).
    + by rewrite IH.
    + rewrite IH. pose proof (split_nonempty c a).
      by destruct (PyStr.split c a).
Qed.

Lemma split_no_sep c s :
  PyStr.contains_char c s = false → PyStr.split c s = [s].
Proof.
  induction s as [|a s IH]; [done|]. simpl.
  intros [Ha Hs]%orb_false_elim. by rewrite Ha, IH.
Qed.

Lemma components_app_sep a b :
  Os.components (a +:+ String OsPath.sep b)
  = Os.components a ++ Os.components b.
Proof. unfold Os.components. by rewrite split_app_sep, filter_app. Qed.

(** The components of [os.path.join(a, b)], for a relative [b]. *)
Lemma components_join a b :
  PyStr.startswith b "/" = false →
  Os.components (OsPath.join a b) = Os.components a ++ Os.components b.
Proof.
  intros Hb. unfold OsPath.join. rewrite Hb.
  destruct (String.eqb_spec a "") as [->|_]; simpl; [done|].
  destruct (PyStr.endswith a "/") eqn:He.
  - apply endswith_app in He as [r ->].
    rewrite app_assoc_str. change ("/" +:+ b) with (String OsPath.sep b).
    rewrite components_app_sep.
    change (r +:+ "/") with (r +:+ String OsPath.sep "").
    rewrite components_app_sep. change (Os.components "") with (@nil string).
    by rewrite app_nil_r.
  - change ("/" +:+ b) with (String OsPath.sep b).
    apply components_app_sep.
Qed.


Lemma no_sep_relative s :
  PyStr.contains_char OsPath.sep s = false → PyStr.startswith s "/" = false.
Proof.
  destruct s as [|a s]; [done|]. simpl.
  change OsPath.sep with "/"%char.
  intros [-> _]%orb_false_elim. done.
Qed.

End ComponentsFacts.

Section TouchesFacts.

Implicit Types (Q : list string → Prop) (fs : FS) (k : list string).









Lemma touches_only_mkdirs_from todo :
  touches_only (λ k, k `prefix_of` todo) (Os.mkdirs_from [] todo).
Proof. intros fs r fs' k Hrun Hk. by eapply mkdirs_from_frame. Qed.

Lemma touches_only_makedirs p :
  touches_only (λ k, k `prefix_of` Os.components p) (Os.makedirs p).
Proof.
  intros fs r fs' k. unfold Os.makedirs.
  case_decide; [by intros [= _ <-]|]. apply touches_only_mkdirs_from.
Qed.

End TouchesFacts.

Section BranchFacts.

Implicit Types (k l : list string) (dir : string).




End BranchFacts.





(** ** A failed download *)

Lemma archive_name_component n :
  PyStr.contains_char OsPath.sep n = false →
  Os.components (n +:+ "_RAW.tar") = [n +:+ "_RAW.tar"].
Proof.
  intros Hn. unfold Os.components.
  rewrite split_no_sep by (rewrite contains_char_app, Hn; reflexivity).
  rewrite filter_cons, decide_True, filter_nil; [done|].
  split; destruct n as [|a [|b n]]; done.
Qed.

(** X16: when [DownloadDatasetTask.run] raises (the directory cannot be made, the
    server has no archive, or the file cannot be written), an output that did
    not exist still does not exist: unlike the stages that make their output
    directory first, a failed acquire stage stays incomplete and is taken
    again by the next run.  The dataset name has no slash in it. *)
Theorem failed_download_stays_incomplete (env : Env) (n download_dir : string)
    (e : Error) (fs fs' : FS) :
  PyStr.contains_char OsPath.sep n = false →
  complete (DownloadDatasetTask n download_dir) fs = false →
  DownloadDatasetTask_run env n download_dir fs = (Raise e, fs') →
  complete (DownloadDatasetTask n download_dir) fs' = false.
Proof.
  unfold complete. simpl. intros Hn Hinc Hrun.
  apply path_exists_false in Hinc as [Hempty|[Hk Hnone]];
    apply path_exists_false; [by left|right]. split; [done|].
  assert (Hkey : Os.components (OsPath.join download_dir (n +:+ "_RAW.tar"))
                 = Os.components download_dir ++ [n +:+ "_RAW.tar"]).
  { rewrite components_join, archive_name_component; [done..|].
    apply no_sep_relative. rewrite contains_char_app, Hn. reflexivity. }
  assert (Hnot : ¬ Os.components (OsPath.join download_dir (n +:+ "_RAW.tar"))
                   `prefix_of` Os.components download_dir).
  { rewrite Hkey. intros Hpre%prefix_length. rewrite length_app in Hpre.
    simpl in Hpre. lia. }
  assert (Hmk : ∀ r fs1, Os.makedirs download_dir fs = (r, fs1) →
            fs1 !! Os.components (OsPath.join download_dir (n +:+ "_RAW.tar"))
            = None).
  { intros r fs1 Hmk. rewrite <- Hnone.
    by eapply touches_only_makedirs. }
  unfold DownloadDatasetTask_run in Hrun.
  apply bind_Raise in Hrun as [Hrun|([] & fs1 & Hmk1 & Hrun)];
    [by eapply Hmk|].
  apply bind_Raise in Hrun
    as [Hrun%lift_unchanged|(content & fs2 & Hfetch%lift_unchanged & Hwrite)].
  - subst fs'. by eapply Hmk.
  - subst fs2. apply write_file_Raise in Hwrite as ->. by eapply Hmk.
Qed.

Lemma failed_download_stays_incomplete_witness :
  let fs' : FS := <[ ["data_downloads"] := Dir ]> ∅ in
  PyStr.contains_char OsPath.sep "GSE00000" = false
  ∧ complete (DownloadDatasetTask "GSE00000" "data_downloads") ∅ = false
  ∧ DownloadDatasetTask_run sample_env "GSE00000" "data_downloads" ∅
    = (Raise URLError, fs')
  ∧ complete (DownloadDatasetTask "GSE00000" "data_downloads") fs' = false.
Proof.
  intros fs'.
  assert (Hn : PyStr.contains_char OsPath.sep "GSE00000" = false)
    by reflexivity.
  assert (Hinc : complete (DownloadDatasetTask "GSE00000" "data_downloads") ∅
                 = false) by vm_refl.
  assert (Hrun : DownloadDatasetTask_run sample_env "GSE00000" "data_downloads" ∅
                 = (Raise URLError, fs')) by vm_refl.
  split; [exact Hn|]. split; [exact Hinc|]. split; [exact Hrun|].
  exact (failed_download_stays_incomplete sample_env _ _ _ ∅ fs' Hn Hinc Hrun).
Defined.

(** ** What a successful stage has produced *)

(** After a loop that has ended normally, what each selected step has made
    to exist still exists, when no step removes anything. *)
Lemma for_each_Ok_exists {A} (l : list A) (body : A → M unit)
    (sel : A → bool) (made : A → string) (fs fs' : FS) :
  (∀ x, monotone (body x)) →
  (∀ x fs0 fs1, sel x = true → body x fs0 = (Ok tt, fs1) →
                Os.path_exists fs1 (made x) = true) →
  for_each l body fs = (Ok tt, fs') →
  ∀ x, x ∈ l → sel x = true → Os.path_exists fs' (made x) = true.
Proof.
  intros Hmono Hmade. revert fs.
  induction l as [|y l IH]; intros fs Hrun x Hx Hsel.
  { by apply elem_of_nil in Hx. }
  simpl in Hrun. apply bind_Ok in Hrun as ([] & fs1 & Hy & Hrest).
  apply elem_of_cons in Hx as [-> |Hx]; [|by eapply IH].
  eapply grows_path_exists; [|by eapply Hmade].
  by eapply (monotone_for_each l body Hmono).
Qed.

(** X17: when [ExtractDatasetTask.run] ends normally, the output of the acquire
    stage was a readable archive, and every member of the archive exists
    under [extract_dir] at the path [os.path.join(extract_dir, name)]. *)
Theorem unpack_extracts_every_member (env : Env)
    (n download_dir extract_dir : string) (fs fs' : FS) :
  ExtractDatasetTask_run env n download_dir extract_dir fs = (Ok tt, fs') →
  ∃ fs1 archive members,
    Os.makedirs extract_dir fs = (Ok tt, fs1)
    ∧ Os.look fs1 (Os.components (output (DownloadDatasetTask n download_dir)))
      = Some (File archive)
    ∧ untar env archive = Some members
    ∧ ∀ m, m ∈ members →
           Os.path_exists fs' (OsPath.join extract_dir m.1) = true.
Proof.
  unfold ExtractDatasetTask_run.
  intros ([] & fs1 & Hmk & Hrest)%bind_Ok.
  apply bind_Ok in Hrest as (archive & fs2 & (_ & Hread & ->)%read_file_Ok & Hrest).
  apply bind_Ok in Hrest as (members & fs3 & [Huntar ->]%lift_Ok & Hloop).
  exists fs1, archive, members. do 3 (split; [done|]).
  assert (Hex : extract_dir ≠ "").
  { intros ->. unfold Os.makedirs in Hmk. by rewrite decide_True in Hmk. }
  intros m Hm.
  eapply (for_each_Ok_exists members (extract_member extract_dir)
            (λ _, true) (λ m, OsPath.join extract_dir m.1));
    [| |exact Hloop|exact Hm|done].
  - apply monotone_extract_member.
  - intros [name [content|]] fs0 fs0' _; unfold extract_member; simpl.
    + intros ([] & fs4 & _ & Hwrite)%bind_Ok. by eapply write_file_exists.
    + intros Hdirs. apply path_exists_true. split.
      * unfold OsPath.join. destruct (PyStr.startswith name "/") eqn:Hst.
        { by destruct name. }
        destruct (String.eqb extract_dir "" || PyStr.endswith extract_dir "/");
          by destruct extract_dir.
      * destruct (Os.components (OsPath.join extract_dir name)) as [|c k] eqn:Hk;
          [by eexists|].
        apply mkdirs_from_Ok in Hdirs; [|done].
        rewrite look_cons. simpl in Hdirs. rewrite Hdirs. by eexists.
Qed.

Lemma unpack_extracts_every_member_witness :
  let fs : FS :=
    <[ ["data_downloads"; "GSE68849_RAW.tar"] := File "<archive>" ]>
      (<[ ["data_downloads"] := Dir ]> ∅) in
  let fs' : FS :=
    <[ ["data_extracted"; "GPL10558.txt.gz"] := File "<compressed>" ]>
      (<[ ["data_extracted"] := Dir ]> fs) in
  ExtractDatasetTask_run sample_env "GSE68849" "data_downloads" "data_extracted" fs
  = (Ok tt, fs')
  ∧ ∃ fs1 archive members,
      Os.makedirs "data_extracted" fs = (Ok tt, fs1)
      ∧ Os.look fs1
          (Os.components (output (DownloadDatasetTask "GSE68849" "data_downloads")))
        = Some (File archive)
      ∧ untar sample_env archive = Some members
      ∧ ∀ m, m ∈ members →
             Os.path_exists fs' (OsPath.join "data_extracted" m.1) = true.
Proof.
  intros fs fs'.
  assert (Hrun : ExtractDatasetTask_run sample_env "GSE68849" "data_downloads"
                   "data_extracted" fs = (Ok tt, fs')) by vm_refl.
  split; [exact Hrun|].
  exact (unpack_extracts_every_member sample_env _ _ _ fs fs' Hrun).
Defined.

(** When [ProcessDatasetTask.run] ends normally, every file that [os.walk]
    has listed under [extract_dir] with a name ending in [.txt.gz] has its
    output file in [processed_dir]. *)
Theorem normalize_writes_every_match (env : Env)
    (extract_dir processed_dir : string) (fs fs' : FS) :
  ProcessDatasetTask_run env extract_dir processed_dir fs = (Ok tt, fs') →
  ∃ fs1,
    Os.makedirs processed_dir fs = (Ok tt, fs1)
    ∧ ∀ rf, rf ∈ Os.walk_files extract_dir fs1 →
            PyStr.endswith rf.2 ".txt.gz" = true →
            Os.path_exists fs'
              (decompress_output_file_path processed_dir (OsPath.join rf.1 rf.2))
            = true.
Proof.
  unfold ProcessDatasetTask_run.
  intros ([] & fs1 & Hmk & Hloop)%bind_Ok.
  exists fs1. split; [done|]. intros rf Hrf Hgz.
  eapply (for_each_Ok_exists (Os.walk_files extract_dir fs1)
            (λ rf, if PyStr.endswith rf.2 ".txt.gz"
                   then decompress_file env processed_dir (OsPath.join rf.1 rf.2)
                   else ret tt)
            (λ rf, PyStr.endswith rf.2 ".txt.gz")
            (λ rf, decompress_output_file_path processed_dir
                     (OsPath.join rf.1 rf.2)));
    [| |exact Hloop|exact Hrf|exact Hgz].
  - intros x. destruct (PyStr.endswith x.2 ".txt.gz");
      [apply monotone_decompress_file|apply monotone_ret].
  - intros x fs0 fs0' ->. unfold decompress_file.
    intros (compressed & fs2 & _ & Hrest)%bind_Ok.
    apply bind_Ok in Hrest as (content & fs3 & _ & Hwrite).
    by eapply write_file_exists.
Qed.

Lemma normalize_writes_every_match_witness :
  let fs : FS :=
    <[ ["data_extracted"; "README.txt"] := File "notes" ]>
      (<[ ["data_extracted"; "GPL10558.txt.gz"] := File "<compressed>" ]>
         (<[ ["data_extracted"] := Dir ]> ∅)) in
  let fs' : FS :=
    <[ ["data_processed"; "GPL10558.txt_processed.txt"] := File "<table>" ]>
      (<[ ["data_processed"] := Dir ]> fs) in
  ProcessDatasetTask_run sample_env "data_extracted" "data_processed" fs
  = (Ok tt, fs')
  ∧ ∃ fs1,
      Os.makedirs "data_processed" fs = (Ok tt, fs1)
      ∧ ∀ rf, rf ∈ Os.walk_files "data_extracted" fs1 →
              PyStr.endswith rf.2 ".txt.gz" = true →
              Os.path_exists fs'
                (decompress_output_file_path "data_processed"
                   (OsPath.join rf.1 rf.2))
              = true.
Proof.
  intros fs fs'.
  assert (Hrun : ProcessDatasetTask_run sample_env "data_extracted"
                   "data_processed" fs = (Ok tt, fs')) by vm_refl.
  split; [exact Hrun|].
  exact (normalize_writes_every_match sample_env _ _ fs fs' Hrun).
Defined.

(** When [TrimDatasetColumnsTask.run] ends normally, every file that
    [os.walk] has listed under [processed_dir] with a name ending in
    [_processed.txt] has its output file in [trimmed_dir]. *)
Theorem project_writes_every_match (env : Env)
    (processed_dir trimmed_dir : string) (fs fs' : FS) :
  TrimDatasetColumnsTask_run env processed_dir trimmed_dir fs = (Ok tt, fs') →
  ∃ fs1,
    Os.makedirs trimmed_dir fs = (Ok tt, fs1)
    ∧ ∀ rf, rf ∈ Os.walk_files processed_dir fs1 →
            PyStr.endswith rf.2 "_processed.txt" = true →
            Os.path_exists fs'
              (trim_output_file_path trimmed_dir (OsPath.join rf.1 rf.2))
            = true.
Proof.
  unfold TrimDatasetColumnsTask_run.
  intros ([] & fs1 & Hmk & Hloop)%bind_Ok.
  exists fs1. split; [done|]. intros rf Hrf Hp.
  eapply (for_each_Ok_exists (Os.walk_files processed_dir fs1)
            (λ rf, if PyStr.endswith rf.2 "_processed.txt"
                   then trim_columns env trimmed_dir (OsPath.join rf.1 rf.2)
                          columns_to_remove
                   else ret tt)
            (λ rf, PyStr.endswith rf.2 "_processed.txt")
            (λ rf, trim_output_file_path trimmed_dir (OsPath.join rf.1 rf.2)));
    [| |exact Hloop|exact Hrf|exact Hp].
  - intros x. destruct (PyStr.endswith x.2 "_processed.txt");
      [apply monotone_trim_columns|apply monotone_ret].
  - intros x fs0 fs0' ->. unfold trim_columns.
    intros (text & fs2 & _ & Hrest)%bind_Ok.
    apply bind_Ok in Hrest as (df & fs3 & _ & Hwrite).
    by eapply write_file_exists.
Qed.

Lemma project_writes_every_match_witness :
  let fs : FS :=
    <[ ["data_processed"; "GPL10558.txt_processed.txt"] := File "<table>" ]>
      (<[ ["data_processed"] := Dir ]> ∅) in
  let fs' : FS :=
    <[ ["data_trimmed"; "GPL10558.txt_trimmed.txt"] := File "ID_REF,Symbol" ]>
      (<[ ["data_trimmed"] := Dir ]> fs) in
  TrimDatasetColumnsTask_run sample_env "data_processed" "data_trimmed" fs
  = (Ok tt, fs')
  ∧ ∃ fs1,
      Os.makedirs "data_trimmed" fs = (Ok tt, fs1)
      ∧ ∀ rf, rf ∈ Os.walk_files "data_processed" fs1 →
              PyStr.endswith rf.2 "_processed.txt" = true →
              Os.path_exists fs'
                (trim_output_file_path "data_trimmed" (OsPath.join rf.1 rf.2))
              = true.
Proof.
  intros fs fs'.
  assert (Hrun : TrimDatasetColumnsTask_run sample_env "data_processed"
                   "data_trimmed" fs = (Ok tt, fs')) by vm_refl.
  split; [exact Hrun|].
  exact (project_writes_every_match sample_env _ _ fs fs' Hrun).
Defined.

(** ** Running the clean stage again *)

Section CleanupAgain.

Implicit Types (fs : FS) (d : string) (dirs : list string).




End CleanupAgain.



Example cleanup_rerun_fails_on_sentinel :
  CleanupTask_run ["cleanup_status.done"] ∅
  = (Ok tt, <[ ["cleanup_status.done"] := File "Cleanup completed." ]> ∅)
  ∧ CleanupTask_run ["cleanup_status.done"]
      (<[ ["cleanup_status.done"] := File "Cleanup completed." ]> ∅)
    = (Raise NotADirectoryError,
       <[ ["cleanup_status.done"] := File "Cleanup completed." ]> ∅).
Proof. split; vm_refl. Qed.

(** ** The files that the loops reach *)

Section WalkReach.

Implicit Types (fs : FS) (top file : string) (k rest : list string).

Lemma relative_to_app k rest : Os.relative_to k (k ++ rest) = Some rest.
Proof.
  induction k as [|a k IH]; [by destruct rest|].
  simpl. by rewrite decide_True.
Qed.

(** [os.walk(top)] lists every regular file under the directory [top], with
    the path of its directory built from [top]. *)
Lemma walk_files_elem top fs rest c file :
  top ≠ "" →
  Os.look fs (Os.components top) = Some Dir →
  fs !! (Os.components top ++ rest) = Some (File c) →
  last rest = Some file →
  (fold_left OsPath.join (removelast rest) top, file) ∈ Os.walk_files top fs.
Proof.
  intros Htop Hdir Hfile Hlast. unfold Os.walk_files.
  rewrite decide_False, Hdir by done.
  apply list_elem_of_omap.
  exists (Os.components top ++ rest, File c). split.
  - by apply elem_of_map_to_list.
  - simpl. rewrite relative_to_app. simpl. by rewrite Hlast.
Qed.

(** The path that the loops build for a file of [os.walk] has the name of
    the file as its [basename]. *)
Lemma walked_basename root file :
  PyStr.contains_char OsPath.sep file = false →
  OsPath.basename (OsPath.join root file) = file.
Proof. apply basename_join. Qed.

End WalkReach.

(** X18: when [ProcessDatasetTask.run] ends normally, every regular file
    that lies under [extract_dir], at any depth, and whose name ends in
    [.txt.gz] has an output file directly in [processed_dir], named after it
    with [.gz] replaced by [_processed.txt]. *)
Theorem normalize_covers_every_compressed_file (env : Env)
    (extract_dir processed_dir : string) (fs fs' : FS) :
  ProcessDatasetTask_run env extract_dir processed_dir fs = (Ok tt, fs') →
  ∃ fs1,
    Os.makedirs processed_dir fs = (Ok tt, fs1)
    ∧ ∀ rest c file,
        extract_dir ≠ "" →
        Os.look fs1 (Os.components extract_dir) = Some Dir →
        fs1 !! (Os.components extract_dir ++ rest) = Some (File c) →
        last rest = Some file →
        PyStr.contains_char OsPath.sep file = false →
        PyStr.endswith file ".txt.gz" = true →
        Os.path_exists fs'
          (OsPath.join processed_dir (PyStr.replace file ".gz" "_processed.txt"))
        = true.
Proof.
  unfold ProcessDatasetTask_run.
  intros ([] & fs1 & Hmk & Hloop)%bind_Ok.
  exists fs1. split; [done|].
  intros rest c file Hex Hdir Hfile Hlast Hslash Hgz.
  pose proof (walk_files_elem _ _ _ _ _ Hex Hdir Hfile Hlast) as Hrf.
  set (root := fold_left OsPath.join (removelast rest) extract_dir) in *.
  cut (Os.path_exists fs'
         (decompress_output_file_path processed_dir (OsPath.join root file))
       = true).
  { unfold decompress_output_file_path. by rewrite walked_basename. }
  apply (for_each_Ok_exists (Os.walk_files extract_dir fs1)
           (λ rf, if PyStr.endswith rf.2 ".txt.gz"
                  then decompress_file env processed_dir (OsPath.join rf.1 rf.2)
                  else ret tt)
           (λ rf, PyStr.endswith rf.2 ".txt.gz")
           (λ rf, decompress_output_file_path processed_dir
                    (OsPath.join rf.1 rf.2))
           fs1 fs') with (x := (root, file));
    [| |exact Hloop|exact Hrf|exact Hgz].
  - intros x. destruct (PyStr.endswith x.2 ".txt.gz");
      [apply monotone_decompress_file|apply monotone_ret].
  - intros x fs0 fs0' ->. unfold decompress_file.
    intros (compressed & fs2 & _ & Hrest)%bind_Ok.
    apply bind_Ok in Hrest as (content & fs3 & _ & Hwrite).
    by eapply write_file_exists.
Qed.

Lemma normalize_covers_every_compressed_file_witness :
  let fs : FS :=
    <[ ["data_extracted"; "sub"; "GPL10558.txt.gz"] := File "<compressed>" ]>
      (<[ ["data_extracted"; "sub"] := Dir ]>
         (<[ ["data_extracted"] := Dir ]> ∅)) in
  let fs' : FS :=
    <[ ["data_processed"; "GPL10558.txt_processed.txt"] := File "<table>" ]>
      (<[ ["data_processed"] := Dir ]> fs) in
  ProcessDatasetTask_run sample_env "data_extracted" "data_processed" fs
  = (Ok tt, fs')
  ∧ ∃ fs1,
      Os.makedirs "data_processed" fs = (Ok tt, fs1)
      ∧ ∀ rest c file,
          "data_extracted" ≠ "" →
          Os.look fs1 (Os.components "data_extracted") = Some Dir →
          fs1 !! (Os.components "data_extracted" ++ rest) = Some (File c) →
          last rest = Some file →
          PyStr.contains_char OsPath.sep file = false →
          PyStr.endswith file ".txt.gz" = true →
          Os.path_exists fs'
            (OsPath.join "data_processed"
               (PyStr.replace file ".gz" "_processed.txt"))
          = true.
Proof.
  intros fs fs'.
  assert (Hrun : ProcessDatasetTask_run sample_env "data_extracted"
                   "data_processed" fs = (Ok tt, fs')) by vm_refl.
  split; [exact Hrun|].
  exact (normalize_covers_every_compressed_file sample_env _ _ fs fs' Hrun).
Defined.

(** X19: when [TrimDatasetColumnsTask.run] ends normally, every regular file
    that lies under [processed_dir], at any depth, and whose name ends in
    [_processed.txt] has an output file directly in [trimmed_dir], named
    after it with [_processed.txt] replaced by [_trimmed.txt]. *)
Theorem project_covers_every_processed_file (env : Env)
    (processed_dir trimmed_dir : string) (fs fs' : FS) :
  TrimDatasetColumnsTask_run env processed_dir trimmed_dir fs = (Ok tt, fs') →
  ∃ fs1,
    Os.makedirs trimmed_dir fs = (Ok tt, fs1)
    ∧ ∀ rest c file,
        processed_dir ≠ "" →
        Os.look fs1 (Os.components processed_dir) = Some Dir →
        fs1 !! (Os.components processed_dir ++ rest) = Some (File c) →
        last rest = Some file →
        PyStr.contains_char OsPath.sep file = false →
        PyStr.endswith file "_processed.txt" = true →
        Os.path_exists fs'
          (OsPath.join trimmed_dir
             (PyStr.replace file "_processed.txt" "_trimmed.txt"))
        = true.
Proof.
  unfold TrimDatasetColumnsTask_run.
  intros ([] & fs1 & Hmk & Hloop)%bind_Ok.
  exists fs1. split; [done|].
  intros rest c file Hex Hdir Hfile Hlast Hslash Hp.
  pose proof (walk_files_elem _ _ _ _ _ Hex Hdir Hfile Hlast) as Hrf.
  set (root := fold_left OsPath.join (removelast rest) processed_dir) in *.
  cut (Os.path_exists fs'
         (trim_output_file_path trimmed_dir (OsPath.join root file))
       = true).
  { unfold trim_output_file_path. by rewrite walked_basename. }
  apply (for_each_Ok_exists (Os.walk_files processed_dir fs1)
           (λ rf, if PyStr.endswith rf.2 "_processed.txt"
                  then trim_columns env trimmed_dir (OsPath.join rf.1 rf.2)
                         columns_to_remove
                  else ret tt)
           (λ rf, PyStr.endswith rf.2 "_processed.txt")
           (λ rf, trim_output_file_path trimmed_dir (OsPath.join rf.1 rf.2))
           fs1 fs') with (x := (root, file));
    [| |exact Hloop|exact Hrf|exact Hp].
  - intros x. destruct (PyStr.endswith x.2 "_processed.txt");
      [apply monotone_trim_columns|apply monotone_ret].
  - intros x fs0 fs0' ->. unfold trim_columns.
    intros (text & fs2 & _ & Hrest)%bind_Ok.
    apply bind_Ok in Hrest as (df & fs3 & _ & Hwrite).
    by eapply write_file_exists.
Qed.

Lemma project_covers_every_processed_file_witness :
  let fs : FS :=
    <[ ["data_processed"; "GPL10558.txt_processed.txt"] := File "<table>" ]>
      (<[ ["data_processed"] := Dir ]> ∅) in
  let fs' : FS :=
    <[ ["data_trimmed"; "GPL10558.txt_trimmed.txt"] := File "ID_REF,Symbol" ]>
      (<[ ["data_trimmed"] := Dir ]> fs) in
  TrimDatasetColumnsTask_run sample_env "data_processed" "data_trimmed" fs
  = (Ok tt, fs')
  ∧ ∃ fs1,
      Os.makedirs "data_trimmed" fs = (Ok tt, fs1)
      ∧ ∀ rest c file,
          "data_processed" ≠ "" →
          Os.look fs1 (Os.components "data_processed") = Some Dir →
          fs1 !! (Os.components "data_processed" ++ rest) = Some (File c) →
          last rest = Some file →
          PyStr.contains_char OsPath.sep file = false →
          PyStr.endswith file "_processed.txt" = true →
          Os.path_exists fs'
            (OsPath.join "data_trimmed"
               (PyStr.replace file "_processed.txt" "_trimmed.txt"))
          = true.
Proof.
  intros fs fs'.
  assert (Hrun : TrimDatasetColumnsTask_run sample_env "data_processed"
                   "data_trimmed" fs = (Ok tt, fs')) by vm_refl.
  split; [exact Hrun|].
  exact (project_covers_every_processed_file sample_env _ _ fs fs' Hrun).
Defined.
